(** * AutoColumnSize: the column-width cache of the grid

    Shallow embedding of [src/plugins/autoColumnSize/autoColumnSize.js].
    The plugin object is a record threaded through a small state monad
    that can also raise the one fault the file can raise by itself: a
    property read on a host reference that is no longer there.  Calls to
    the collaborators (sample selector, measurement surface, frame
    scheduler, overlays) are recorded in a trace, so that "how often"
    and "in which order" are ordinary statements about lists. *)

From Stdlib Require Import ZArith Lia.
From stdpp Require Import gmap list.

Open Scope Z_scope.

(** ** JavaScript values used by the plugin *)

(** [{from: .., to: ..}]: both ends inclusive. *)
Record Range := mkRange { from : Z; to : Z }.

(** A range argument is documented as [Number|Object]. *)
Inductive RangeArg :=
| RNumber (n : Z)
| RObject (r : Range).

(** [if (typeof r === 'number') r = {from: r, to: r}] *)
Definition normalize (r : RangeArg) : Range :=
  match r with
  | RNumber n => mkRange n n
  | RObject o => o
  end.

(** A number or [undefined] ([None]). *)
Abbreviation JsNum := (option Z).

(** Truthiness of a number-or-undefined: [undefined] and [0] are falsy. *)
Definition truthy (v : JsNum) : bool :=
  match v with
  | Some n => negb (n =? 0)
  | None => false
  end.

(** [v || 0] on a number-or-undefined. *)
Definition orZero (v : JsNum) : Z :=
  match v with
  | Some n => if truthy v then n else 0
  | None => 0
  end.

(** The indices [rangeEach(r.from, r.to, ..)] visits, in order. *)
Definition columnsOf (r : Range) : list Z := seqZ (from r) (to r - from r + 1).

(** ** The host ([this.hot]) as far as the plugin reads it *)

Record Viewport := mkViewport {
  columnsVisibleCalculator : bool;
  columnsRenderCalculator : bool;
  wtFirstVisibleColumn : Z;
  wtLastVisibleColumn : Z;
  wtFirstRenderedColumn : Z;
  wtLastRenderedColumn : Z
}.

(** The body of [getFirstVisibleColumn] once [wot] is at hand. *)
Definition firstVisibleColumn (wot : Viewport) : Z :=
  if columnsVisibleCalculator wot then wtFirstVisibleColumn wot
  else if columnsRenderCalculator wot then wtFirstRenderedColumn wot
  else -1.

(** The body of [getLastVisibleColumn] once [wot] is at hand. *)
Definition lastVisibleColumn (wot : Viewport) : Z :=
  if columnsVisibleCalculator wot then wtLastVisibleColumn wot
  else if columnsRenderCalculator wot then wtLastRenderedColumn wot
  else -1.

Record Host := mkHost {
  countCols : Z;
  countRows : Z;
  getColWidthFromSettings : Z -> JsNum;
  renderCall : bool;
  wt : Viewport;
  needFullRender : bool
}.

(** A range argument after defaulting and normalisation, on a live host. *)
Definition resolve (count : Host -> Z) (r : option RangeArg) (h : Host) : Range :=
  match r with
  | Some a => normalize a
  | None => mkRange 0 (count h - 1)
  end.

(** ** The closure of [loop] inside [calculateAllColumnsWidth] *)

Module Loop.
Record env := mk {
  rowRange : RangeArg;
  current : Z;
  length : Z;
  timer : JsNum
}.
End Loop.

(** [static get CALCULATION_STEP()] *)
Definition CALCULATION_STEP : Z := 19.

(** ** The cache: [this.widths], a JavaScript array read and written by key.
    A key can hold a number, hold [undefined], or be missing; reading a
    missing key gives [undefined] too. *)

Definition widthAt (w : gmap Z JsNum) (col : Z) : JsNum :=
  match w !! col with
  | Some v => v
  | None => None
  end.

(** [getColumnWidth(col, defaultWidth = void 0)] only reads the cache. *)
Definition getColumnWidth (w : gmap Z JsNum) (col : Z) (defaultWidth : JsNum) : JsNum :=
  match widthAt w col with
  | Some cached => if orZero defaultWidth <? cached then Some cached else defaultWidth
  | None => defaultWidth
  end.

(** The edits handed to [beforeChange]: [[row, col, oldValue, newValue]]. *)
Record Change (V : Type) := mkChange {
  chRow : Z;
  chCol : Z;
  chOld : V;
  chNew : V
}.
Arguments mkChange {V}.
Arguments chRow {V}.
Arguments chCol {V}.

(** [arrayEach(changes, data => this.widths[data[1]] = void 0)] *)
Definition onBeforeChange {V} (changes : list (Change V)) (w : gmap Z JsNum) : gmap Z JsNum :=
  fold_left (fun acc data => <[chCol data := None]> acc) changes w.

(** An array index of ECMAScript: an integer from 0 to 2^32 - 2.  Any
    other key of an array is an ordinary property. *)
Definition isArrayIndex (k : Z) : bool := (0 <=? k) && (k <? 2 ^ 32 - 1).

(** [this.widths.length = 0]: every element at an array index is deleted,
    the other properties of the array object stay. *)
Definition setLengthZero (w : gmap Z JsNum) : gmap Z JsNum :=
  filter (fun kv => isArrayIndex (fst kv) = false) w.

Section Plugin.

(** What the sample selector hands over for one column. *)
Context {Sample : Type}.

(** [samplesGenerator.generateColumnSamples(col, rowRange)]: the
    entries of the returned [Map], in iteration order.  The selector reads
    the cells through [(row, col) => this.hot.getDataAtCell(row, col)];
    those reads are inside this parameter, so what they do on a host that
    is gone is not modelled. *)
Variable generateColumnSamples : Z -> Range -> list (Z * Sample).

(** The width the measurement surface reports for a registered column. *)
Variable measure : Z -> Sample -> Z.

(** Calls that leave the plugin. *)
Inductive Event :=
| EGenerateColumnSamples (col : Z) (rows : Range)
| EAddColumn (col : Z) (sample : Sample)
| EGetWidths
| EClean
| ERequestFrame (handle : Z)
| ECancelFrame (handle : JsNum)
| EAdjustElementsSize
| EDraw.

Record Plugin := mkPlugin {
  hot : option Host;
  widths : gmap Z JsNum;
  ghostColumns : list (Z * Sample);
  frames : list Z;
  nextFrame : Z;
  trace : list Event
}.

Definition setWidths (w : gmap Z JsNum) (p : Plugin) : Plugin :=
  mkPlugin (hot p) w (ghostColumns p) (frames p) (nextFrame p) (trace p).
Definition setGhostColumns (g : list (Z * Sample)) (p : Plugin) : Plugin :=
  mkPlugin (hot p) (widths p) g (frames p) (nextFrame p) (trace p).
Definition setFrames (f : list Z) (p : Plugin) : Plugin :=
  mkPlugin (hot p) (widths p) (ghostColumns p) f (nextFrame p) (trace p).
Definition setNextFrame (n : Z) (p : Plugin) : Plugin :=
  mkPlugin (hot p) (widths p) (ghostColumns p) (frames p) n (trace p).
Definition setHot (h : option Host) (p : Plugin) : Plugin :=
  mkPlugin h (widths p) (ghostColumns p) (frames p) (nextFrame p) (trace p).
Definition log (evs : list Event) (p : Plugin) : Plugin :=
  mkPlugin (hot p) (widths p) (ghostColumns p) (frames p) (nextFrame p) (trace p ++ evs).

(** ** State and fault monad *)

Inductive Res (A : Type) :=
| Ok (a : A)
| TypeError.
Arguments Ok {A}.
Arguments TypeError {A}.

Definition M (A : Type) : Type := Plugin -> Res A * Plugin.

Definition ret {A} (a : A) : M A := fun p => (Ok a, p).

Definition bind {A B} (m : M A) (f : A -> M B) : M B :=
  fun p =>
    match m p with
    | (Ok a, p') => f a p'
    | (TypeError, p') => (TypeError, p')
    end.

Notation "x <- m ;; k" := (bind m (fun x => k))
  (at level 100, m at next level, right associativity).
Notation "m ;;; k" := (bind m (fun _ => k))
  (at level 100, right associativity).

Fixpoint forEach {A} (l : list A) (f : A -> M unit) : M unit :=
  match l with
  | [] => ret tt
  | x :: l' => f x ;;; forEach l' f
  end.

(** Modelled from the spec: [rangeEach] of [helpers.js] is not among the
    sources; a range is inclusive on both ends and [from > to] is the
    empty range. *)
Definition rangeEach (rangeFrom rangeTo : Z) (f : Z -> M unit) : M unit :=
  forEach (seqZ rangeFrom (rangeTo - rangeFrom + 1)) f.

(** [this.hot.something]: a fault when the reference is gone. *)
Definition theHot : M Host :=
  fun p =>
    match hot p with
    | Some h => (Ok h, p)
    | None => (TypeError, p)
    end.

(** [!this.hot] *)
Definition hotGone : M bool :=
  fun p => (Ok (if hot p is Some _ then false else true), p).

Definition emit (e : Event) : M unit := fun p => (Ok tt, log [e] p).

Definition readWidth (col : Z) : M JsNum :=
  fun p => (Ok (widthAt (widths p) col), p).

(** [this.widths[col] = width] *)
Definition writeWidth (col width : Z) : M unit :=
  fun p => (Ok tt, setWidths (<[col := Some width]> (widths p)) p).

(** Modelled from the spec: the measurement surface ([utils/ghostTable.js]
    is not among the sources).  [addColumn] registers a column with its
    samples, [getWidths] calls back once per registered column with its
    measured width, [clean] empties the registrations, and
    [columns.length] is the registration count. *)
Definition ghostAddColumn (col : Z) (sample : Sample) : M unit :=
  fun p => (Ok tt, log [EAddColumn col sample] (setGhostColumns (ghostColumns p ++ [(col, sample)]) p)).

Definition ghostColumnsLength : M nat :=
  fun p => (Ok (List.length (ghostColumns p)), p).

Definition ghostGetWidths (callback : Z -> Z -> M unit) : M unit :=
  emit EGetWidths ;;;
  cols <- (fun p => (Ok (ghostColumns p), p)) ;;
  forEach cols (fun c => callback (fst c) (measure (fst c) (snd c))).

Definition ghostClean : M unit :=
  fun p => (Ok tt, log [EClean] (setGhostColumns [] p)).

(** Modelled from the spec: the frame scheduler ([requestAnimationFrame]
    and [cancelAnimationFrame] of [helpers.js] are not among the
    sources).  [schedule] returns a fresh handle and queues the
    callback, [cancel] removes a queued handle. *)
Definition requestAnimationFrame : M Z :=
  fun p =>
    let h := nextFrame p in
    (Ok h, log [ERequestFrame h] (setNextFrame (h + 1) (setFrames (frames p ++ [h]) p))).

Definition cancelAnimationFrame (handle : JsNum) : M unit :=
  fun p =>
    (Ok tt, log [ECancelFrame handle]
                (setFrames (filter (fun h => Some h <> handle) (frames p)) p)).

(** ** [calculateColumnsWidth] *)

(** [force || (this.widths[col] === void 0 && !this.hot._getColWidthFromSettings(col))],
    with JavaScript's short-circuit evaluation. *)
Definition mustMeasure (force : bool) (col : Z) : M bool :=
  if force then ret true
  else
    w <- readWidth col ;;
    match w with
    | Some _ => ret false
    | None =>
        h <- theHot ;;
        ret (negb (truthy (getColWidthFromSettings h col)))
    end.

(** The callback handed to [rangeEach]. *)
Definition measureColumn (rows : Range) (force : bool) (col : Z) : M unit :=
  go <- mustMeasure force col ;;
  if go : bool then
    emit (EGenerateColumnSamples col rows) ;;;
    forEach (generateColumnSamples col rows)
            (fun s => ghostAddColumn (fst s) (snd s))
  else ret tt.

(** [colRange = {from: 0, to: this.hot.countCols() - 1}] and its sibling. *)
Definition defaultRange (count : Host -> Z) (r : option RangeArg) : M RangeArg :=
  match r with
  | Some a => ret a
  | None => h <- theHot ;; ret (RObject (mkRange 0 (count h - 1)))
  end.

Definition calculateColumnsWidth
    (colRange rowRange : option RangeArg) (force : bool) : M unit :=
  colRange <- defaultRange countCols colRange ;;
  rowRange <- defaultRange countRows rowRange ;;
  let colRange := normalize colRange in
  let rowRange := normalize rowRange in
  rangeEach (from colRange) (to colRange) (measureColumn rowRange force) ;;;
  n <- ghostColumnsLength ;;
  if (n =? 0)%nat then ret tt
  else ghostGetWidths writeWidth ;;; ghostClean.

(** ** [calculateAllColumnsWidth] and its [loop] *)

Definition loop (e : Loop.env) : M Loop.env :=
  gone <- hotGone ;;
  if gone : bool then
    cancelAnimationFrame (Loop.timer e) ;;;
    ret e
  else
    calculateColumnsWidth
      (Some (RObject (mkRange (Loop.current e)
                        (Z.min (Loop.current e + CALCULATION_STEP) (Loop.length e)))))
      (Some (Loop.rowRange e)) true ;;;
    let current := Loop.current e + CALCULATION_STEP + 1 in
    if current <? Loop.length e then
      handle <- requestAnimationFrame ;;
      ret (Loop.mk (Loop.rowRange e) current (Loop.length e) (Some handle))
    else
      (match Loop.timer e with
       | Some _ => cancelAnimationFrame (Loop.timer e)
       | None => ret tt
       end) ;;;
      h <- theHot ;;
      emit EAdjustElementsSize ;;;
      (if needFullRender h then emit EDraw else ret tt) ;;;
      ret (Loop.mk (Loop.rowRange e) current (Loop.length e) (Loop.timer e)).

Definition calculateAllColumnsWidth (rowRange : option RangeArg) : M Loop.env :=
  rowRange <- defaultRange countRows rowRange ;;
  h <- theHot ;;
  let e := Loop.mk rowRange 0 (countRows h - 1) None in
  if Loop.current e <? Loop.length e then loop e else ret e.

(** ** Viewport queries and the hooks *)

Definition getFirstVisibleColumn : M Z :=
  h <- theHot ;;
  ret (firstVisibleColumn (wt h)).

Definition getLastVisibleColumn : M Z :=
  h <- theHot ;;
  ret (lastVisibleColumn (wt h)).

Definition onBeforeRender : M unit :=
  h <- theHot ;;
  let force := renderCall h in
  first <- getFirstVisibleColumn ;;
  last <- getLastVisibleColumn ;;
  calculateColumnsWidth (Some (RObject (mkRange first last))) None force.

(** The hook as registered: [changes => this.onBeforeChange(changes)]. *)
Definition beforeChange {V} (changes : list (Change V)) : M unit :=
  fun p => (Ok tt, setWidths (onBeforeChange changes (widths p)) p).

Definition onBeforeColumnResize (col : Z) (size : JsNum) (isDblClick : bool) : M JsNum :=
  if isDblClick then
    calculateColumnsWidth None (Some (RNumber col)) true ;;;
    w <- (fun p => (Ok (widths p), p)) ;;
    ret (getColumnWidth w col None)
  else ret size.

(** [clearCache()] *)
Definition clearCache : M unit :=
  fun p => (Ok tt, setWidths (setLengthZero (widths p)) p).

(** The callback [onAfterLoadData] hands to [setTimeout(.., 0)]:
    [if (this.hot) this.calculateAllColumnsWidth()].  The hook itself only
    queues it.  [None] when the guard skipped the run. *)
Definition onAfterLoadData : M (option Loop.env) :=
  gone <- hotGone ;;
  if gone : bool then ret None
  else e <- calculateAllColumnsWidth None ;; ret (Some e).

(** ** The frame scheduler driving a run *)

(** The scheduler fires the oldest queued handle: it leaves the queue
    and [loop] runs.  Nothing happens when nothing is queued. *)
Definition frame (e : Loop.env) : M Loop.env :=
  fun p =>
    match frames p with
    | [] => (Ok e, p)
    | _ :: rest => loop e (setFrames rest p)
    end.

(** What can happen between two callbacks.  Modelled from the spec: the
    teardown ([BasePlugin.destroy] of [_base.js]) is not among the sources;
    after it the host reference is unavailable. *)
Inductive Action :=
| Tick
| HostGone.

Definition act (a : Action) (e : Loop.env) : M Loop.env :=
  match a with
  | Tick => frame e
  | HostGone => fun p => (Ok e, setHot None p)
  end.

Fixpoint play (actions : list Action) (e : Loop.env) : M Loop.env :=
  match actions with
  | [] => ret e
  | a :: rest => e' <- act a e ;; play rest e'
  end.

(** Frames fired until none is queued; [None] only when [fuel] runs out. *)
Fixpoint drain (fuel : nat) (e : Loop.env) (p : Plugin) : option (Res Loop.env * Plugin) :=
  match frames p with
  | [] => Some (Ok e, p)
  | _ :: _ =>
      match fuel with
      | O => None
      | S fuel' =>
          match frame e p with
          | (Ok e', p') => drain fuel' e' p'
          | (TypeError, p') => Some (TypeError, p')
          end
      end
  end.

(** A whole run: the synchronous first batch, then the queued frames. *)
Definition runAllColumnsWidth (fuel : nat) (rowRange : option RangeArg) (p : Plugin)
  : option (Res Loop.env * Plugin) :=
  match calculateAllColumnsWidth rowRange p with
  | (Ok e, p') => drain fuel e p'
  | (TypeError, p') => Some (TypeError, p')
  end.

(** ** Reading a trace *)

Definition sampleRequest (e : Event) : option (Z * Range) :=
  match e with
  | EGenerateColumnSamples col rows => Some (col, rows)
  | _ => None
  end.

Definition registration (e : Event) : option (Z * Sample) :=
  match e with
  | EAddColumn col sample => Some (col, sample)
  | _ => None
  end.

(** The calls of [generateColumnSamples], in order. *)
Definition sampleRequests (t : list Event) : list (Z * Range) := omap sampleRequest t.

(** Columns for which samples were requested, in order of request. *)
Definition sampledColumns (t : list Event) : list Z := map fst (sampleRequests t).

(** The calls of [ghostTable.addColumn], in order. *)
Definition registered (t : list Event) : list (Z * Sample) := omap registration t.

Definition isAdjust (e : Event) : bool :=
  match e with EAdjustElementsSize => true | _ => false end.

Definition isRequestFrame (e : Event) : bool :=
  match e with ERequestFrame _ => true | _ => false end.

Definition countEvents (f : Event -> bool) (t : list Event) : nat :=
  List.length (List.filter f t).

(** The events logged on the way from [p] to [p']. *)
Definition since (p p' : Plugin) : list Event :=
  drop (List.length (trace p)) (trace p').

(** ** One batch, read off the state it starts in *)

(** The guard of [mustMeasure] as a function of the plugin state. *)
Definition stale (force : bool) (p : Plugin) (col : Z) : bool :=
  force ||
  match widthAt (widths p) col, hot p with
  | None, Some h => negb (truthy (getColWidthFromSettings h col))
  | _, _ => false
  end.

(** Calls made for the columns that are measured. *)
Definition sampleEvents (rows : Range) (cols : list Z) : list Event :=
  flat_map (fun c => EGenerateColumnSamples c rows ::
                     map (fun s => EAddColumn (fst s) (snd s)) (generateColumnSamples c rows))
           cols.

Definition registrations (rows : Range) (cols : list Z) : list (Z * Sample) :=
  flat_map (fun c => generateColumnSamples c rows) cols.

(** The writes of [getWidths((col, width) => this.widths[col] = width)]. *)
Definition flush (g : list (Z * Sample)) (w : gmap Z JsNum) : gmap Z JsNum :=
  fold_left (fun acc c => <[fst c := Some (measure (fst c) (snd c))]> acc) g w.

(** Everything one [calculateColumnsWidth] call logs when it samples [cols]. *)
Definition batchEvents (rows : Range) (cols : list Z) : list Event :=
  sampleEvents rows cols ++
  match registrations rows cols with
  | [] => []
  | _ => [EGetWidths; EClean]
  end.

(** The plugin after a batch that asked for [cols]. *)
Definition afterBatch (rows : Range) (cols : list Z) (p : Plugin) : Plugin :=
  match registrations rows cols with
  | [] => log (sampleEvents rows cols) p
  | g => mkPlugin (hot p) (flush g (widths p)) [] (frames p) (nextFrame p)
           (trace p ++ sampleEvents rows cols ++ [EGetWidths; EClean])
  end.

(** ** The last batch of a run *)

(** What [loop] logs after the batch that is not followed by another. *)
Definition finishEvents (t : JsNum) (h : Host) : list Event :=
  (match t with Some _ => [ECancelFrame t] | None => [] end) ++
  [EAdjustElementsSize] ++
  (if needFullRender h then [EDraw] else []).

(** The frame queue after [if (timer !== null) cancelAnimationFrame(timer)]. *)
Definition framesAfterCancel (t : JsNum) (queue : list Z) : list Z :=
  match t with
  | Some _ => filter (fun x => Some x <> t) queue
  | None => queue
  end.

(** How many columns a run visits from its cursor when [d] lie between
    the cursor and [length]. *)
Definition span (d : Z) : Z := if d mod (CALCULATION_STEP + 1) =? 0 then d else d + 1.

End Plugin.

Arguments Event : clear implicits.
Arguments Plugin : clear implicits.
Arguments M : clear implicits.
Arguments Ok {A}.
Arguments TypeError {A}.

Notation "x <- m ;; k" := (bind m (fun x => k))
  (at level 100, m at next level, right associativity).
Notation "m ;;; k" := (bind m (fun _ => k))
  (at level 100, right associativity).

(** ** Collaborators and hosts used in the examples *)

(** Modelled from the spec: the sample selector ([utils/samplesGenerator.js]
    is not among the sources) returns a mapping from column index to
    samples; asked for one column it answers with one entry, for that
    column.  The row range stands for the values sampled from it. *)
Definition columnSamples (col : Z) (rows : Range) : list (Z * Range) := [(col, rows)].

(** A measurement surface that reports the same width for every column. *)
Definition fixedWidth (width : Z) (col : Z) (sample : Range) : Z := width.

Definition notRendered : Viewport := mkViewport false false 0 0 0 0.

(** A grid that has not been rendered yet, with its user-declared widths. *)
Definition declaredGrid (cols rows : Z) (declared : Z -> JsNum) : Host :=
  mkHost cols rows declared false notRendered false.

(** The same without user-declared widths. *)
Definition grid (cols rows : Z) : Host := declaredGrid cols rows (fun _ => None).

(** A plugin on a host, with a given cache and nothing pending. *)
Definition cached (h : Host) (w : gmap Z JsNum) : Plugin Range := mkPlugin (Some h) w [] [] 0 [].

(** A freshly enabled plugin on a host. *)
Definition fresh (h : Host) : Plugin Range := cached h ∅.




(** The trace a run ends with; empty when the fuel did not suffice. *)
Definition runTrace {Sample : Type} (r : option (Res Loop.env * Plugin Sample))
  : list (Event Sample) :=
  match r with
  | Some (_, p) => trace p
  | None => []
  end.

(** The skip condition as the specification words it: not forced, a width
    is cached, and the host declares no width for the column. *)
Definition skipAsSpecified (force : bool) (w : gmap Z JsNum) (h : Host) (col : Z) : Prop :=
  force = false /\ is_Some (widthAt w col) /\ getColWidthFromSettings h col = None.

(** * Properties *)

Section BatchFacts.

Context {Sample : Type}.
Variable gen : Z -> Range -> list (Z * Sample).
Variable measure : Z -> Sample -> Z.

Implicit Types (p : Plugin Sample) (rows : Range) (cols : list Z).

Lemma log_nil p : log [] p = p.
Proof. destruct p; unfold log; simpl. by rewrite app_nil_r. Qed.

Lemma log_log evs1 evs2 p : log evs2 (log evs1 p) = log (evs1 ++ evs2) p.
Proof. unfold log; simpl. by rewrite app_assoc. Qed.

(** [samples.forEach((sample, col) => this.ghostTable.addColumn(col, sample))] *)
Lemma forEach_addColumn (l : list (Z * Sample)) p :
  forEach l (fun s => ghostAddColumn (fst s) (snd s)) p
  = (Ok tt, log (map (fun s => EAddColumn (fst s) (snd s)) l)
                (setGhostColumns (ghostColumns p ++ l) p)).
Proof.
  revert p. induction l as [|s l IH]; intros p; simpl.
  - unfold ret. f_equal. rewrite app_nil_r. destruct p; unfold log; simpl.
    by rewrite app_nil_r.
  - unfold bind, ghostAddColumn. rewrite IH. f_equal.
    destruct s as [c x]. unfold log, setGhostColumns; simpl. by rewrite <- !app_assoc.
Qed.

(** The callbacks of [getWidths] write one cache entry each. *)
Lemma forEach_writeWidth (g : list (Z * Sample)) p :
  forEach g (fun c => writeWidth (fst c) (measure (fst c) (snd c))) p
  = (Ok tt, setWidths (flush measure g (widths p)) p).
Proof.
  revert p. induction g as [|c g IH]; intros p; simpl.
  - unfold ret. by destruct p.
  - unfold bind, writeWidth. by rewrite IH.
Qed.

Lemma stale_log force evs p col : stale force (log evs p) col = stale force p col.
Proof. reflexivity. Qed.

Lemma stale_setGhostColumns force g p col :
  stale force (setGhostColumns g p) col = stale force p col.
Proof. reflexivity. Qed.

(** One call of the [rangeEach] callback. *)
Lemma measureColumn_run rows force col p :
  force = true \/ is_Some (hot p) ->
  measureColumn gen rows force col p
  = (Ok tt, log (sampleEvents gen rows (List.filter (stale force p) [col]))
                (setGhostColumns
                   (ghostColumns p ++ registrations gen rows (List.filter (stale force p) [col]))
                   p)).
Proof.
  intros Hok. unfold measureColumn, mustMeasure, stale, bind.
  destruct force; cbn [orb List.filter].
  - unfold ret, emit. rewrite forEach_addColumn.
    f_equal. unfold sampleEvents, registrations, log, setGhostColumns; simpl.
    by rewrite !app_nil_r, <- !app_assoc.
  - destruct Hok as [?|[h Hh]]; [done|].
    unfold readWidth, theHot, ret. rewrite Hh.
    destruct (widthAt (widths p) col) as [w|]; cbn beta iota; rewrite ?Hh.
    + f_equal. simpl. rewrite app_nil_r, log_nil. destruct p; reflexivity.
    + destruct (truthy (getColWidthFromSettings h col)); cbn [negb].
      * f_equal. simpl. rewrite app_nil_r, log_nil. destruct p; reflexivity.
      * unfold emit. rewrite forEach_addColumn. f_equal.
        unfold sampleEvents, registrations, log, setGhostColumns; simpl.
        by rewrite !app_nil_r, <- !app_assoc.
Qed.

(** The whole [rangeEach]: the columns for which the guard holds, in
    range order, each sampled and its samples registered. *)
Lemma forEach_measureColumn rows force cols p :
  force = true \/ is_Some (hot p) ->
  forEach cols (measureColumn gen rows force) p
  = (Ok tt, log (sampleEvents gen rows (List.filter (stale force p) cols))
                (setGhostColumns
                   (ghostColumns p ++ registrations gen rows (List.filter (stale force p) cols))
                   p)).
Proof.
  revert p. induction cols as [|c cols IH]; intros p Hok.
  - simpl. unfold ret. f_equal. rewrite app_nil_r. destruct p; unfold log; simpl.
    by rewrite app_nil_r.
  - cbn [forEach]. unfold bind at 1. rewrite measureColumn_run by done.
    rewrite IH by (destruct Hok; [by left | by right]).
    f_equal.
    change (c :: cols) with ([c] ++ cols).
    rewrite List.filter_app. unfold sampleEvents, registrations.
    rewrite !flat_map_app.
    unfold log, setGhostColumns; simpl. by rewrite <- !app_assoc.
Qed.

Lemma afterBatch_unfold rows cols p :
  ghostColumns p = [] ->
  (n <- ghostColumnsLength ;;
   if (n =? 0)%nat then ret tt else ghostGetWidths measure writeWidth ;;; ghostClean)
    (log (sampleEvents gen rows cols)
       (setGhostColumns (ghostColumns p ++ registrations gen rows cols) p))
  = (Ok tt, afterBatch gen measure rows cols p).
Proof.
  intros Hg. rewrite Hg. cbn [app]. unfold afterBatch, bind, ghostColumnsLength.
  cbn [ghostColumns log setGhostColumns].
  destruct (registrations gen rows cols) as [|c g] eqn:Hreg.
  - cbn [List.length Nat.eqb]. unfold ret. f_equal.
    destruct p; unfold log, setGhostColumns; simpl in *. by rewrite Hg.
  - cbn [List.length Nat.eqb]. unfold ghostGetWidths, bind, emit.
    cbn [ghostColumns log setGhostColumns]. rewrite forEach_writeWidth.
    unfold ghostClean, log, setGhostColumns, setWidths; simpl.
    by rewrite <- !app_assoc.
Qed.

(** [calculateColumnsWidth] on a live host: the stale columns of the
    range are sampled and registered, then flushed once. *)
Lemma calculateColumnsWidth_run colRange rowRange force p h :
  hot p = Some h ->
  ghostColumns p = [] ->
  calculateColumnsWidth gen measure colRange rowRange force p
  = (Ok tt, afterBatch gen measure (resolve countRows rowRange h)
              (List.filter (stale force p) (columnsOf (resolve countCols colRange h))) p).
Proof.
  intros Hh Hg. unfold calculateColumnsWidth.
  assert (Hdef : forall count r,
             defaultRange count r p
             = (Ok (match r with Some a => a | None => RObject (mkRange 0 (count h - 1)) end), p)).
  { intros count [a|]; [done|]. unfold defaultRange, bind, theHot, ret. by rewrite Hh. }
  unfold bind at 1. rewrite Hdef. unfold bind at 1. rewrite Hdef.
  unfold bind at 1, rangeEach.
  rewrite forEach_measureColumn by (right; by rewrite Hh).
  replace (normalize match rowRange with Some a => a | None => RObject (mkRange 0 (countRows h - 1)) end)
    with (resolve countRows rowRange h) by (by destruct rowRange).
  replace (normalize match colRange with Some a => a | None => RObject (mkRange 0 (countCols h - 1)) end)
    with (resolve countCols colRange h) by (by destruct colRange).
  by apply afterBatch_unfold.
Qed.

(** The forced call of a batch with both ranges given: the engine itself
    reads no host property on this path. *)
Lemma calculateColumnsWidth_forced colRange rowRange p :
  ghostColumns p = [] ->
  calculateColumnsWidth gen measure (Some colRange) (Some rowRange) true p
  = (Ok tt, afterBatch gen measure (normalize rowRange) (columnsOf (normalize colRange)) p).
Proof.
  intros Hg. unfold calculateColumnsWidth, defaultRange.
  unfold bind at 1, ret at 1. unfold bind at 1, ret at 1.
  unfold bind at 1, rangeEach.
  rewrite forEach_measureColumn by (by left).
  replace (List.filter (stale true p) (seqZ (from (normalize colRange))
             (to (normalize colRange) - from (normalize colRange) + 1)))
    with (columnsOf (normalize colRange)).
  - by apply afterBatch_unfold.
  - unfold columnsOf. symmetry. apply forallb_filter_id. by apply forallb_forall.
Qed.

(** *** What a batch leaves behind *)

Lemma afterBatch_hot rows cols p : hot (afterBatch gen measure rows cols p) = hot p.
Proof. unfold afterBatch. by destruct (registrations gen rows cols). Qed.

Lemma afterBatch_frames rows cols p : frames (afterBatch gen measure rows cols p) = frames p.
Proof. unfold afterBatch. by destruct (registrations gen rows cols). Qed.

Lemma afterBatch_nextFrame rows cols p :
  nextFrame (afterBatch gen measure rows cols p) = nextFrame p.
Proof. unfold afterBatch. by destruct (registrations gen rows cols). Qed.

Lemma afterBatch_ghostColumns rows cols p :
  ghostColumns p = [] -> ghostColumns (afterBatch gen measure rows cols p) = [].
Proof. unfold afterBatch. by destruct (registrations gen rows cols). Qed.

Lemma afterBatch_widths rows cols p :
  widths (afterBatch gen measure rows cols p)
  = flush measure (registrations gen rows cols) (widths p).
Proof. unfold afterBatch. by destruct (registrations gen rows cols). Qed.

Lemma afterBatch_trace rows cols p :
  trace (afterBatch gen measure rows cols p) = trace p ++ batchEvents gen rows cols.
Proof.
  unfold afterBatch, batchEvents.
  destruct (registrations gen rows cols); simpl; [by rewrite app_nil_r | done].
Qed.

Lemma since_app p p' evs : trace p' = trace p ++ evs -> since p p' = evs.
Proof. intros Ht. unfold since. rewrite Ht. apply drop_app_length. Qed.

Lemma since_afterBatch rows cols p :
  since p (afterBatch gen measure rows cols p) = batchEvents gen rows cols.
Proof. apply since_app, afterBatch_trace. Qed.

Lemma sampleRequests_app (t1 t2 : list (Event Sample)) :
  sampleRequests (t1 ++ t2) = sampleRequests t1 ++ sampleRequests t2.
Proof. apply omap_app. Qed.

Lemma registered_app (t1 t2 : list (Event Sample)) :
  registered (t1 ++ t2) = registered t1 ++ registered t2.
Proof. apply omap_app. Qed.

Lemma countEvents_app f (t1 t2 : list (Event Sample)) :
  countEvents f (t1 ++ t2) = (countEvents f t1 + countEvents f t2)%nat.
Proof. unfold countEvents. by rewrite List.filter_app, length_app. Qed.

Lemma sampleRequests_addColumns (l : list (Z * Sample)) :
  sampleRequests (map (fun s => EAddColumn (fst s) (snd s)) l) = [].
Proof. by induction l. Qed.

Lemma registered_addColumns (l : list (Z * Sample)) :
  registered (map (fun s => EAddColumn (fst s) (snd s)) l) = l.
Proof. induction l as [|[c x] l IH]; [done|]. unfold registered in *. simpl in *. by f_equal. Qed.

Lemma sampleEvents_cons rows c cols :
  sampleEvents gen rows (c :: cols)
  = EGenerateColumnSamples c rows ::
    map (fun s => EAddColumn (fst s) (snd s)) (gen c rows) ++ sampleEvents gen rows cols.
Proof. reflexivity. Qed.

Lemma sampleRequests_sampleEvents rows cols :
  sampleRequests (sampleEvents gen rows cols) = map (fun c => (c, rows)) cols.
Proof.
  induction cols as [|c cols IH]; [done|].
  rewrite sampleEvents_cons.
  change (sampleRequests (EGenerateColumnSamples c rows :: ?t))
    with ((c, rows) :: sampleRequests t).
  by rewrite sampleRequests_app, sampleRequests_addColumns, IH.
Qed.

Lemma registered_sampleEvents rows cols :
  registered (sampleEvents gen rows cols) = registrations gen rows cols.
Proof.
  induction cols as [|c cols IH]; [done|].
  rewrite sampleEvents_cons.
  change (registered (EGenerateColumnSamples c rows :: ?t)) with (registered t).
  by rewrite registered_app, registered_addColumns, IH.
Qed.

Lemma countEvents_sampleEvents f rows cols :
  (forall c r, f (EGenerateColumnSamples c r) = false) ->
  (forall c x, f (EAddColumn c x) = false) ->
  countEvents f (sampleEvents gen rows cols) = 0%nat.
Proof.
  intros Hs Ha. induction cols as [|c cols IH]; [done|].
  unfold sampleEvents in *. cbn [flat_map]. rewrite countEvents_app, IH.
  unfold countEvents. cbn [List.filter]. rewrite Hs.
  induction (gen c rows) as [|[c' x] l IHl]; [done|].
  cbn [map List.filter fst snd]. by rewrite Ha.
Qed.

Lemma batchEvents_tail rows cols :
  exists tl, batchEvents gen rows cols = sampleEvents gen rows cols ++ tl
             /\ (tl = [] \/ tl = [EGetWidths; EClean]).
Proof.
  unfold batchEvents. destruct (registrations gen rows cols); eexists; split; eauto.
Qed.

Lemma sampleRequests_batchEvents rows cols :
  sampleRequests (batchEvents gen rows cols) = map (fun c => (c, rows)) cols.
Proof.
  destruct (batchEvents_tail rows cols) as (tl & -> & [->| ->]);
    rewrite sampleRequests_app, sampleRequests_sampleEvents; simpl; by rewrite app_nil_r.
Qed.

Lemma sampledColumns_batchEvents rows cols :
  sampledColumns (batchEvents gen rows cols) = cols.
Proof.
  unfold sampledColumns. rewrite sampleRequests_batchEvents, map_map. simpl.
  apply map_id.
Qed.

Lemma registered_batchEvents rows cols :
  registered (batchEvents gen rows cols) = registrations gen rows cols.
Proof.
  destruct (batchEvents_tail rows cols) as (tl & -> & [->| ->]);
    rewrite registered_app, registered_sampleEvents; simpl; by rewrite app_nil_r.
Qed.

Lemma countEvents_batchEvents f rows cols :
  (forall c r, f (EGenerateColumnSamples c r) = false) ->
  (forall c x, f (EAddColumn c x) = false) ->
  f EGetWidths = false -> f EClean = false ->
  countEvents f (batchEvents gen rows cols) = 0%nat.
Proof.
  intros Hs Ha Hg Hc.
  destruct (batchEvents_tail rows cols) as (tl & -> & [->| ->]);
    rewrite countEvents_app, countEvents_sampleEvents by done; [done|].
  unfold countEvents. simpl. by rewrite Hg, Hc.
Qed.

(** *** What a flush writes *)

Lemma flush_other (g : list (Z * Sample)) (w : gmap Z JsNum) col :
  col ∉ map fst g -> flush measure g w !! col = w !! col.
Proof.
  revert w. induction g as [|[c x] g IH]; intros w Hnot; [done|].
  simpl in Hnot. apply not_elem_of_cons in Hnot as [Hne Hnot].
  unfold flush in *. simpl. rewrite IH by done. by rewrite lookup_insert_ne.
Qed.



End BatchFacts.

(** ** One call of the calculation engine *)

Section EngineFacts.

Context {Sample : Type}.
Variable gen : Z -> Range -> list (Z * Sample).
Variable measure : Z -> Sample -> Z.

Implicit Types (p : Plugin Sample) (h : Host) (rows : Range) (cols : list Z).

Lemma elem_of_filter_bool (f : Z -> bool) (l : list Z) (x : Z) :
  x ∈ List.filter f l <-> x ∈ l /\ f x = true.
Proof. rewrite !list_elem_of_In. apply filter_In. Qed.


Lemma stale_false_iff p h col :
  hot p = Some h ->
  stale false p col = false
  <-> is_Some (widthAt (widths p) col) \/ truthy (getColWidthFromSettings h col) = true.
Proof.
  intros Hh. unfold stale. rewrite Hh. cbn [orb].
  destruct (widthAt (widths p) col) as [c|].
  - split; [intros _; left; by eexists | done].
  - destruct (truthy (getColWidthFromSettings h col)); cbn [negb].
    + split; [by right | done].
    + split; [done | intros [[c Hc]|Hc]; done].
Qed.

(** The samples of a sampled column all reach the measurement surface. *)
Lemma registrations_elem rows cols col (s : Z * Sample) :
  col ∈ cols -> s ∈ gen col rows -> s ∈ registrations gen rows cols.
Proof.
  intros Hc Hs. unfold registrations. rewrite list_elem_of_In.
  apply in_flat_map. exists col. by rewrite <- !list_elem_of_In.
Qed.

(** The plugin and the new part of the trace after one call. *)
Lemma calculateColumnsWidth_since colRange rowRange force p h :
  hot p = Some h ->
  ghostColumns p = [] ->
  let cols := List.filter (stale force p) (columnsOf (resolve countCols colRange h)) in
  let rows := resolve countRows rowRange h in
  let r := calculateColumnsWidth gen measure colRange rowRange force p in
  fst r = Ok tt /\
  hot (snd r) = Some h /\
  ghostColumns (snd r) = [] /\
  frames (snd r) = frames p /\
  widths (snd r) = flush measure (registrations gen rows cols) (widths p) /\
  since p (snd r) = batchEvents gen rows cols.
Proof.
  intros Hh Hg cols rows r. subst r.
  rewrite (calculateColumnsWidth_run gen measure colRange rowRange force p h Hh Hg).
  cbn [fst snd]. fold cols rows.
  rewrite afterBatch_hot, afterBatch_frames, afterBatch_widths, since_afterBatch.
  repeat split; try done. by apply afterBatch_ghostColumns.
Qed.

End EngineFacts.

(** ** The cache read path and the edit hook *)

Section CacheFacts.

Implicit Types (w : gmap Z JsNum) (col d : Z).

Lemma orZero_number d : orZero (Some d) = d.
Proof. unfold orZero, truthy. destruct (Z.eqb_spec d 0); simpl; lia. Qed.

Lemma getColumnWidth_number w col d :
  getColumnWidth w col (Some d)
  = match widthAt w col with
    | Some cached => if d <? cached then Some cached else Some d
    | None => Some d
    end.
Proof. unfold getColumnWidth. by rewrite orZero_number. Qed.

Lemma onBeforeChange_other {V} (changes : list (Change V)) w col :
  col ∉ map chCol changes -> onBeforeChange changes w !! col = w !! col.
Proof.
  revert w. induction changes as [|data changes IH]; intros w Hnot; [done|].
  simpl in *. apply not_elem_of_cons in Hnot as [Hne Hnot].
  unfold onBeforeChange in *. simpl. rewrite IH by done.
  by rewrite lookup_insert_ne.
Qed.

Lemma onBeforeChange_edited {V} (changes : list (Change V)) w col :
  col ∈ map chCol changes -> onBeforeChange changes w !! col = Some None.
Proof.
  revert w. induction changes as [|data changes IH]; intros w Hin.
  - by apply elem_of_nil in Hin.
  - destruct (decide (col ∈ map chCol changes)) as [Hrest|Hrest].
    + unfold onBeforeChange in *. simpl. by apply IH.
    + simpl in Hin. apply elem_of_cons in Hin as [->|Hin]; [|done].
      change (onBeforeChange (data :: changes) w)
        with (onBeforeChange changes (<[chCol data := None]> w)).
      rewrite onBeforeChange_other by done. by rewrite lookup_insert_eq.
Qed.

End CacheFacts.

(** C4.  For a numeric default [d], [getColumnWidth(col, d)] is a number
    that is never below [d]: it is the cached width exactly when there is
    one and it is strictly greater than [d || 0], and it is [d] in every
    other case. *)
Theorem getColumnWidth_never_below_default (w : gmap Z JsNum) (col d : Z) :
  exists r,
    getColumnWidth w col (Some d) = Some r /\ d <= r /\
    ((exists cached, widthAt w col = Some cached /\ orZero (Some d) < cached /\ r = cached)
     \/ (~ (exists cached, widthAt w col = Some cached /\ orZero (Some d) < cached) /\ r = d)).
Proof.
  rewrite getColumnWidth_number, orZero_number.
  destruct (widthAt w col) as [cached|] eqn:Hc.
  - destruct (Z.ltb_spec d cached) as [Hlt|Hge].
    + exists cached. repeat split; [lia|]. left. by exists cached.
    + exists d. repeat split; [lia|]. right. split; [|done].
      intros (c & Heq & Hlt). inversion Heq; subst. lia.
  - exists d. repeat split; [lia|]. right. split; [|done].
    by intros (c & Heq & _).
Qed.

(** The example of the specification: 120 cached for column 3. *)
Lemma getColumnWidth_never_below_default_witness :
  getColumnWidth {[3 := Some 120]} 3 (Some 80) = Some 120 /\
  getColumnWidth {[3 := Some 120]} 3 (Some 150) = Some 150 /\
  exists r, getColumnWidth {[3 := Some 120]} 3 (Some 80) = Some r /\ 80 <= r.
Proof.
  split; [reflexivity|]. split; [reflexivity|].
  destruct (getColumnWidth_never_below_default {[3 := Some 120]} 3 80) as (r & Hr & Hle & _).
  exists r. split; [exact Hr | exact Hle].
Defined.

(** ** Which columns a call measures *)

(** C3, as the code has it.  On a live host, a column of the range is
    skipped exactly when the call is not forced and the column has a cached
    width or the host declares a non-zero width for it; any other column of
    the range has its samples requested for the row range, and every sample
    returned for it is registered with the measurement surface. *)
Theorem calculateColumnsWidth_skip_condition {Sample : Type}
    (gen : Z -> Range -> list (Z * Sample)) (measure : Z -> Sample -> Z)
    (colRange rowRange : option RangeArg) (force : bool)
    (p : Plugin Sample) (h : Host) (col : Z) :
  hot p = Some h ->
  ghostColumns p = [] ->
  col ∈ columnsOf (resolve countCols colRange h) ->
  let r := calculateColumnsWidth gen measure colRange rowRange force p in
  fst r = Ok tt /\
  (col ∉ sampledColumns (since p (snd r))
   <-> force = false /\
       (is_Some (widthAt (widths p) col) \/ truthy (getColWidthFromSettings h col) = true)) /\
  (col ∈ sampledColumns (since p (snd r)) ->
   (col, resolve countRows rowRange h) ∈ sampleRequests (since p (snd r)) /\
   forall s, s ∈ gen col (resolve countRows rowRange h) -> s ∈ registered (since p (snd r))).
Proof.
  intros Hh Hg Hcol r.
  destruct (calculateColumnsWidth_since gen measure colRange rowRange force p h Hh Hg)
    as (Hok & _ & _ & _ & _ & Hsince).
  fold r in Hok, Hsince. rewrite Hsince.
  rewrite sampledColumns_batchEvents, sampleRequests_batchEvents, registered_batchEvents.
  split; [done|]. split.
  - rewrite elem_of_filter_bool. destruct force.
    + split; [intros Hn; exfalso; apply Hn; by split | by intros [? _]].
    + rewrite <- (stale_false_iff p h col Hh). split.
      * intros Hn. split; [done|]. destruct (stale false p col); [|done].
        exfalso. apply Hn. by split.
      * intros [_ Hs] [_ Ht]. congruence.
  - intros Hin. split.
    + apply (list_elem_of_fmap_2 (fun c => (c, resolve countRows rowRange h))). exact Hin.
    + intros s Hs. by apply registrations_elem with col.
Qed.

Lemma calculateColumnsWidth_skip_condition_witness :
  let r := calculateColumnsWidth columnSamples (fixedWidth 50)
             (Some (RObject (mkRange 0 2))) None false
             (cached (declaredGrid 3 4 (fun c => if c =? 1 then Some 100 else None)) ∅) in
  fst r = Ok tt /\
  (1 ∉ sampledColumns (since (cached (declaredGrid 3 4 (fun c => if c =? 1 then Some 100 else None)) ∅) (snd r))
   <-> false = false /\
       (is_Some (widthAt (∅ : gmap Z JsNum) 1) \/ truthy (Some 100) = true)).
Proof.
  pose proof (calculateColumnsWidth_skip_condition columnSamples (fixedWidth 50)
                (Some (RObject (mkRange 0 2))) None false
                (cached (declaredGrid 3 4 (fun c => if c =? 1 then Some 100 else None)) ∅)
                (declaredGrid 3 4 (fun c => if c =? 1 then Some 100 else None)) 1
                eq_refl eq_refl) as H.
  assert (Hin : 1 ∈ columnsOf (resolve countCols (Some (RObject (mkRange 0 2)))
                       (declaredGrid 3 4 (fun c => if c =? 1 then Some 100 else None)))).
  { vm_compute. apply list_elem_of_In. simpl. tauto. }
  destruct (H Hin) as (Hok & Hiff & _). split; [exact Hok | exact Hiff].
Defined.

(** C3 as stated fails: a column without a cached width whose host declares
    a width is skipped by an unforced call, although the stated condition
    for skipping does not hold for it. *)
Lemma skip_condition_as_specified_fails :
  let h := declaredGrid 1 1 (fun _ => Some 100) in
  let r := calculateColumnsWidth columnSamples (fixedWidth 50)
             (Some (RObject (mkRange 0 0))) (Some (RObject (mkRange 0 0))) false
             (cached h ∅) in
  0 ∈ columnsOf (mkRange 0 0) /\
  fst r = Ok tt /\
  (0 ∉ sampledColumns (since (cached h ∅) (snd r))) /\
  ~ skipAsSpecified false ∅ h 0.
Proof.
  cbv zeta. split; [apply list_elem_of_here|]. split; [reflexivity|]. split.
  - vm_compute. apply not_elem_of_nil.
  - intros (_ & [c Hc] & _). vm_compute in Hc. discriminate Hc.
Qed.

(** ** A call on a live host, whatever is registered before it *)

Section EngineLive.

Context {Sample : Type}.
Variable gen : Z -> Range -> list (Z * Sample).
Variable measure : Z -> Sample -> Z.

Implicit Types (p q : Plugin Sample) (h : Host).

(** The last registration for a column decides its width. *)
Lemma flush_written_from (g : list (Z * Sample)) (w : gmap Z JsNum) col :
  col ∈ map fst g ->
  exists s, (col, s) ∈ g /\ flush measure g w !! col = Some (Some (measure col s)).
Proof.
  revert w. induction g as [|[c x] g IH]; intros w Hin.
  - by apply elem_of_nil in Hin.
  - destruct (decide (col ∈ map fst g)) as [Hrest|Hrest].
    + destruct (IH (<[c := Some (measure c x)]> w) Hrest) as (s & Hs & Hw).
      exists s. split; [by apply list_elem_of_further | exact Hw].
    + simpl in Hin. apply elem_of_cons in Hin as [->|Hin]; [|done].
      exists x. split; [apply list_elem_of_here|].
      change (flush measure ((c, x) :: g) w)
        with (flush measure g (<[c := Some (measure c x)]> w)).
      rewrite flush_other by done. by rewrite lookup_insert_eq.
Qed.

(** The flush at the end of a call, with what it logs. *)
Lemma flush_logged q :
  exists q' tl,
    (n <- ghostColumnsLength ;;
     if (n =? 0)%nat then ret tt else ghostGetWidths measure writeWidth ;;; ghostClean) q
    = (Ok tt, q') /\
    hot q' = hot q /\
    ghostColumns q' = [] /\
    widths q' = flush measure (ghostColumns q) (widths q) /\
    trace q' = trace q ++ tl /\
    (tl = [] \/ tl = [EGetWidths; EClean]).
Proof.
  unfold bind at 1. unfold ghostColumnsLength.
  destruct (ghostColumns q) as [|c g] eqn:Hg; cbn [List.length Nat.eqb].
  - exists q, []. unfold ret. rewrite Hg, app_nil_r. repeat split; by left.
  - unfold ghostGetWidths, bind, emit. cbn [ghostColumns log]. rewrite Hg.
    rewrite forEach_writeWidth. eexists _, [EGetWidths; EClean].
    split; [reflexivity|]. cbn [hot ghostColumns widths trace ghostClean log
                                  setGhostColumns setWidths snd].
    rewrite <- app_assoc. repeat split; by right.
Qed.

(** One call on a live host. *)
Lemma calculateColumnsWidth_live colRange rowRange force p h :
  hot p = Some h ->
  let cols := List.filter (stale force p) (columnsOf (resolve countCols colRange h)) in
  let rows := resolve countRows rowRange h in
  let r := calculateColumnsWidth gen measure colRange rowRange force p in
  fst r = Ok tt /\
  hot (snd r) = Some h /\
  ghostColumns (snd r) = [] /\
  widths (snd r) = flush measure (ghostColumns p ++ registrations gen rows cols) (widths p) /\
  sampleRequests (since p (snd r)) = map (fun c => (c, rows)) cols /\
  registered (since p (snd r)) = registrations gen rows cols.
Proof.
  intros Hh cols rows r.
  assert (Hrun : exists p' tl,
             r = (Ok tt, p') /\ hot p' = Some h /\ ghostColumns p' = [] /\
             widths p' = flush measure (ghostColumns p ++ registrations gen rows cols) (widths p) /\
             trace p' = trace p ++ sampleEvents gen rows cols ++ tl /\
             (tl = [] \/ tl = [EGetWidths; EClean])).
  { subst r. unfold calculateColumnsWidth.
    assert (Hdef : forall count a,
               defaultRange count a p
               = (Ok (match a with Some x => x | None => RObject (mkRange 0 (count h - 1)) end), p)).
    { intros count [a|]; [done|]. unfold defaultRange, bind, theHot, ret. by rewrite Hh. }
    unfold bind at 1. rewrite Hdef. unfold bind at 1. rewrite Hdef.
    unfold bind at 1, rangeEach.
    rewrite forEach_measureColumn by (right; by rewrite Hh).
    replace (normalize match rowRange with Some a => a | None => RObject (mkRange 0 (countRows h - 1)) end)
      with (resolve countRows rowRange h) by (by destruct rowRange).
    replace (normalize match colRange with Some a => a | None => RObject (mkRange 0 (countCols h - 1)) end)
      with (resolve countCols colRange h) by (by destruct colRange).
    fold (columnsOf (resolve countCols colRange h)). fold cols rows.
    destruct (flush_logged
                (log (sampleEvents gen rows cols)
                   (setGhostColumns (ghostColumns p ++ registrations gen rows cols) p)))
      as (p' & tl & Hrun & Hh' & Hg' & Hw' & Ht' & Htl).
    exists p', tl. rewrite Hrun. split; [done|]. split; [by rewrite Hh'|].
    split; [done|]. split; [exact Hw'|]. split; [|exact Htl].
    rewrite Ht'. cbn [trace log setGhostColumns]. by rewrite <- app_assoc. }
  destruct Hrun as (p' & tl & -> & Hh' & Hg' & Hw' & Ht' & Htl). cbn [fst snd].
  rewrite (since_app p p' _ Ht').
  do 4 (split; [done|]).
  rewrite sampleRequests_app, registered_app,
    sampleRequests_sampleEvents, registered_sampleEvents.
  destruct Htl as [-> | ->]; cbn; by rewrite !app_nil_r.
Qed.

End EngineLive.

(** ** Edits *)

(** C5, as the code has it.  The before-change hook leaves no width for any
    edited column and does not touch the entry of any other column, host
    or no host.  An unforced call on a live host whose range includes an
    edited column then remeasures it, provided the host declares no
    non-zero width for that column: its samples are requested over the row
    range, every sample returned for it is registered with the measurement
    surface, the flush writes the widths measured for what is registered
    into the cache, and when the selector's answer has an entry for the
    column itself, the column ends with the width measured from a sample
    registered by this call. *)
Theorem beforeChange_invalidates {Sample V : Type}
    (gen : Z -> Range -> list (Z * Sample)) (measure : Z -> Sample -> Z)
    (changes : list (Change V)) (colRange rowRange : option RangeArg)
    (p : Plugin Sample) :
  let p1 := snd (beforeChange changes p) in
  fst (beforeChange changes p) = Ok tt /\
  (forall col, col ∈ map chCol changes -> widthAt (widths p1) col = None) /\
  (forall col, col ∉ map chCol changes -> widths p1 !! col = widths p !! col) /\
  (forall h col,
      hot p = Some h ->
      col ∈ map chCol changes ->
      col ∈ columnsOf (resolve countCols colRange h) ->
      truthy (getColWidthFromSettings h col) = false ->
      let rows := resolve countRows rowRange h in
      let r := calculateColumnsWidth gen measure colRange rowRange false p1 in
      fst r = Ok tt /\
      (col, rows) ∈ sampleRequests (since p1 (snd r)) /\
      (forall s, s ∈ gen col rows -> s ∈ registered (since p1 (snd r))) /\
      widths (snd r)
      = flush measure (ghostColumns p1 ++ registered (since p1 (snd r))) (widths p1) /\
      (col ∈ map fst (gen col rows) ->
       exists s, (col, s) ∈ registered (since p1 (snd r)) /\
                 widthAt (widths (snd r)) col = Some (measure col s))).
Proof.
  intros p1. split; [done|].
  assert (Hedit : forall col, col ∈ map chCol changes -> widthAt (widths p1) col = None).
  { intros col Hin. unfold widthAt. subst p1. cbn [beforeChange snd setWidths widths].
    by rewrite onBeforeChange_edited. }
  split; [exact Hedit|]. split.
  - intros col Hnot. subst p1. cbn [beforeChange snd setWidths widths].
    by apply onBeforeChange_other.
  - intros h col Hh Hin Hrange Hdecl rows r.
    assert (Hh1 : hot p1 = Some h) by done.
    destruct (calculateColumnsWidth_live gen measure colRange rowRange false p1 h Hh1)
      as (Hok & _ & _ & Hw & Hreq & Hreg).
    fold rows r in Hok, Hw, Hreq, Hreg.
    set (cols := List.filter (stale false p1) (columnsOf (resolve countCols colRange h)))
      in Hw, Hreq, Hreg.
    assert (Hcol : col ∈ cols).
    { subst cols. apply elem_of_filter_bool. split; [done|].
      destruct (stale false p1 col) eqn:Hs; [done|].
      apply (stale_false_iff p1 h col Hh1) in Hs as [[c Hc]|Ht].
      - rewrite Hedit in Hc by done. discriminate Hc.
      - congruence. }
    split; [done|]. rewrite Hreq, Hreg. split; [|split; [|split]].
    + by apply (list_elem_of_fmap_2 (fun c => (c, rows))).
    + intros s Hs. by apply registrations_elem with col.
    + exact Hw.
    + intros Hkey. rewrite Hw. unfold flush at 1. rewrite fold_left_app.
      fold (flush measure (ghostColumns p1) (widths p1)).
      fold (flush measure (registrations gen rows cols)
              (flush measure (ghostColumns p1) (widths p1))).
      destruct (flush_written_from measure (registrations gen rows cols)
                  (flush measure (ghostColumns p1) (widths p1)) col) as (s & Hs & Hws).
      * apply list_elem_of_fmap in Hkey as ([c x] & Hc & Hx). cbn [fst] in Hc. subst c.
        apply list_elem_of_fmap. exists (col, x). split; [done|].
        by apply registrations_elem with col.
      * exists s. split; [exact Hs|]. unfold widthAt. by rewrite Hws.
Qed.

(** The example of the specification: an edit of cell (2, 3), then a
    recalculation of the visible columns 0 to 9. *)
Lemma beforeChange_invalidates_witness :
  let p := cached (grid 10 5) {[3 := Some 120; 4 := Some 90]} in
  let p1 := snd (beforeChange [mkChange 2 3 tt tt] p) in
  let r := calculateColumnsWidth columnSamples (fixedWidth 50)
             (Some (RObject (mkRange 0 9))) None false p1 in
  widthAt (widths p1) 3 = None /\
  widths p1 !! 4 = Some (Some 90) /\
  (3, mkRange 0 4) ∈ sampleRequests (since p1 (snd r)) /\
  (3, mkRange 0 4) ∈ registered (since p1 (snd r)) /\
  widthAt (widths (snd r)) 3 = Some 50.
Proof.
  intros p p1 r.
  destruct (beforeChange_invalidates columnSamples (fixedWidth 50)
              [mkChange 2 3 tt tt] (Some (RObject (mkRange 0 9))) None p)
    as (_ & Hedit & Hother & Hnext).
  assert (Hin : 3 ∈ map chCol [mkChange 2 3 tt tt]) by apply list_elem_of_here.
  assert (Hnot : 4 ∉ map chCol [mkChange 2 3 tt tt]).
  { intros Hx. apply list_elem_of_In in Hx. simpl in Hx. destruct Hx as [Hx|[]]. discriminate Hx. }
  assert (Hrange : 3 ∈ columnsOf (resolve countCols (Some (RObject (mkRange 0 9))) (grid 10 5))).
  { apply list_elem_of_In. vm_compute. tauto. }
  destruct (Hnext (grid 10 5) 3 eq_refl Hin Hrange eq_refl)
    as (_ & Hreq & Hreg & _ & Hwritten).
  split; [exact (Hedit 3 Hin)|]. split; [exact (eq_trans (Hother 4 Hnot) eq_refl)|].
  split; [exact Hreq|]. split; [apply Hreg; apply list_elem_of_here|].
  destruct (Hwritten (list_elem_of_here _ _)) as (s & _ & Hw). exact Hw.
Defined.

(** C5 as stated fails where the host declares a width for the edited
    column: the entry is gone, yet the next unforced call does not measure
    the column. *)
Lemma invalidated_column_with_declared_width_not_remeasured :
  let h := declaredGrid 10 5 (fun c => if c =? 3 then Some 100 else None) in
  let p1 := snd (beforeChange [mkChange 2 3 tt tt] (cached h {[3 := Some 120]})) in
  let r := calculateColumnsWidth columnSamples (fixedWidth 50)
             (Some (RObject (mkRange 0 9))) None false p1 in
  widthAt (widths p1) 3 = None /\
  3 ∈ columnsOf (mkRange 0 9) /\
  fst r = Ok tt /\
  3 ∉ sampledColumns (since p1 (snd r)).
Proof.
  cbv zeta. split; [reflexivity|]. split.
  - apply list_elem_of_In. vm_compute. tauto.
  - split; [reflexivity|]. intros Hin. apply list_elem_of_In in Hin.
    vm_compute in Hin. intuition discriminate.
Qed.

(** ** Calling twice *)

Section Idempotence.

Context {Sample : Type}.
Variable gen : Z -> Range -> list (Z * Sample).
Variable measure : Z -> Sample -> Z.

(** The sample selector of the repository answers a request for one
    column with one entry, keyed by that column. *)
Hypothesis gen_keyed : forall col rows, map fst (gen col rows) = [col].

Lemma registrations_keyed rows cols : map fst (registrations gen rows cols) = cols.
Proof.
  induction cols as [|c cols IH]; [done|].
  unfold registrations in *. cbn [flat_map]. rewrite map_app, gen_keyed, IH. done.
Qed.


End Idempotence.




(** ** The hooks *)

Section HookFacts.

Context {Sample : Type}.
Variable gen : Z -> Range -> list (Z * Sample).
Variable measure : Z -> Sample -> Z.

Implicit Types (p : Plugin Sample) (h : Host).

Lemma onBeforeRender_run p h :
  hot p = Some h ->
  onBeforeRender gen measure p
  = calculateColumnsWidth gen measure
      (Some (RObject (mkRange (firstVisibleColumn (wt h)) (lastVisibleColumn (wt h)))))
      None (renderCall h) p.
Proof.
  intros Hh. unfold onBeforeRender, getFirstVisibleColumn, getLastVisibleColumn.
  unfold bind at 1, theHot at 1. rewrite Hh.
  unfold bind at 1, bind at 1, theHot at 1, ret at 1. rewrite Hh.
  unfold bind at 1, bind at 1, theHot at 1, ret at 1. rewrite Hh.
  reflexivity.
Qed.

Lemma onBeforeColumnResize_run p col size :
  onBeforeColumnResize gen measure col size true p
  = let r := calculateColumnsWidth gen measure None (Some (RNumber col)) true p in
    match fst r with
    | Ok _ => (Ok (getColumnWidth (widths (snd r)) col None), snd r)
    | TypeError => (TypeError, snd r)
    end.
Proof.
  unfold onBeforeColumnResize, bind.
  destruct (calculateColumnsWidth gen measure None (Some (RNumber col)) true p) as [[[]|] p'];
    reflexivity.
Qed.

Lemma stale_forced p cols : List.filter (stale true p) cols = cols.
Proof. apply forallb_filter_id. by apply forallb_forall. Qed.

(** The double-click branch on a live host. *)
Lemma onBeforeColumnResize_forced p h col size :
  hot p = Some h ->
  ghostColumns p = [] ->
  let r := onBeforeColumnResize gen measure col size true p in
  sampleRequests (since p (snd r))
  = map (fun c => (c, mkRange col col)) (columnsOf (mkRange 0 (countCols h - 1))) /\
  fst r = Ok (getColumnWidth (widths (snd r)) col None).
Proof.
  intros Hh Hg r. subst r. rewrite onBeforeColumnResize_run.
  destruct (calculateColumnsWidth_since gen measure None (Some (RNumber col)) true p h Hh Hg)
    as (Hok & _ & _ & _ & _ & Hsince).
  cbv zeta. rewrite Hok. cbn [fst snd].
  rewrite Hsince, sampleRequests_batchEvents, stale_forced. by split.
Qed.

End HookFacts.

(** C8, as the code runs.  When both viewport queries answer -1, the
    before-render hook hands the range from -1 to -1 to the calculation
    engine, which visits the index -1: unless an unforced render finds a
    width already known for it, samples are requested for column -1 over
    all rows, whatever comes back is registered, and the flush writes
    into the cache. *)
Theorem onBeforeRender_not_rendered {Sample : Type}
    (gen : Z -> Range -> list (Z * Sample)) (measure : Z -> Sample -> Z)
    (p : Plugin Sample) (h : Host) :
  hot p = Some h ->
  ghostColumns p = [] ->
  firstVisibleColumn (wt h) = -1 ->
  lastVisibleColumn (wt h) = -1 ->
  stale (renderCall h) p (-1) = true ->
  let r := onBeforeRender gen measure p in
  let rows := mkRange 0 (countRows h - 1) in
  fst r = Ok tt /\
  sampleRequests (since p (snd r)) = [(-1, rows)] /\
  registered (since p (snd r)) = gen (-1) rows /\
  widths (snd r) = flush measure (gen (-1) rows) (widths p).
Proof.
  intros Hh Hg Hfirst Hlast Hstale r rows. subst r.
  rewrite (onBeforeRender_run gen measure p h Hh), Hfirst, Hlast.
  destruct (calculateColumnsWidth_since gen measure
              (Some (RObject (mkRange (-1) (-1)))) None (renderCall h) p h Hh Hg)
    as (Hok & _ & _ & _ & Hw & Hsince).
  rewrite Hok, Hw, Hsince, sampleRequests_batchEvents, registered_batchEvents.
  change (columnsOf (resolve countCols (Some (RObject (mkRange (-1) (-1)))) h)) with [-1].
  cbn [List.filter]. rewrite Hstale. cbn [map registrations flat_map resolve].
  by rewrite app_nil_r.
Qed.

Lemma onBeforeRender_not_rendered_witness :
  let r := onBeforeRender columnSamples (fixedWidth 50) (fresh (grid 5 5)) in
  fst r = Ok tt /\
  sampleRequests (since (fresh (grid 5 5)) (snd r)) = [(-1, mkRange 0 4)] /\
  registered (since (fresh (grid 5 5)) (snd r)) = [(-1, mkRange 0 4)] /\
  widthAt (widths (snd r)) (-1) = Some 50.
Proof.
  destruct (onBeforeRender_not_rendered columnSamples (fixedWidth 50)
              (fresh (grid 5 5)) (grid 5 5) eq_refl eq_refl eq_refl eq_refl eq_refl)
    as (Hok & Hreq & Hreg & Hw).
  split; [exact Hok|]. split; [exact Hreq|]. split; [exact Hreg|].
  rewrite Hw. reflexivity.
Defined.

(** C2, as the code runs.  With the double-click flag the hook calls the
    engine with the column range left out and the column index in the
    place of the row range: every column of the table is sampled over the
    single row whose index is [col], and the answer is the width then read
    for [col] without a default.  Without the flag the requested size is
    returned and nothing else happens. *)
Theorem onBeforeColumnResize_double_click {Sample : Type}
    (gen : Z -> Range -> list (Z * Sample)) (measure : Z -> Sample -> Z)
    (p : Plugin Sample) (h : Host) (col : Z) (size : JsNum) :
  hot p = Some h ->
  ghostColumns p = [] ->
  let r := onBeforeColumnResize gen measure col size true p in
  sampleRequests (since p (snd r))
  = map (fun c => (c, mkRange col col)) (columnsOf (mkRange 0 (countCols h - 1))) /\
  fst r = Ok (getColumnWidth (widths (snd r)) col None) /\
  onBeforeColumnResize gen measure col size false p = (Ok size, p).
Proof.
  intros Hh Hg r.
  destruct (onBeforeColumnResize_forced gen measure p h col size Hh Hg) as (Hreq & Hres).
  by repeat split.
Qed.

Lemma onBeforeColumnResize_double_click_witness :
  let r := onBeforeColumnResize columnSamples (fixedWidth 50) 1 (Some 30) true (fresh (grid 3 5)) in
  sampleRequests (since (fresh (grid 3 5)) (snd r))
  = [(0, mkRange 1 1); (1, mkRange 1 1); (2, mkRange 1 1)] /\
  fst r = Ok (Some 50).
Proof.
  destruct (onBeforeColumnResize_double_click columnSamples (fixedWidth 50)
              (fresh (grid 3 5)) (grid 3 5) 1 (Some 30) eq_refl eq_refl)
    as (Hreq & Hres & _).
  split; [exact Hreq|]. rewrite Hres. reflexivity.
Defined.

(** C10.  Without a default, [getColumnWidth(col)] is the cached width
    exactly when there is one and it is strictly positive, and [undefined]
    in every other case, a cached 0 included.  The double-click path
    returns that very value, read after the forced measurement, hence
    [undefined] whenever no positive width is then cached for [col]. *)
Theorem getColumnWidth_without_default {Sample : Type}
    (gen : Z -> Range -> list (Z * Sample)) (measure : Z -> Sample -> Z)
    (w : gmap Z JsNum) (col : Z) (p : Plugin Sample) (h : Host) (size : JsNum) :
  hot p = Some h ->
  ghostColumns p = [] ->
  (forall c, getColumnWidth w col None = Some c <-> widthAt w col = Some c /\ 0 < c) /\
  (getColumnWidth w col None = None <-> ~ exists c, widthAt w col = Some c /\ 0 < c) /\
  (widthAt w col = Some 0 -> getColumnWidth w col None = None) /\
  let r := onBeforeColumnResize gen measure col size true p in
  fst r = Ok (getColumnWidth (widths (snd r)) col None) /\
  ((~ exists c, widthAt (widths (snd r)) col = Some c /\ 0 < c) -> fst r = Ok None).
Proof.
  intros Hh Hg.
  assert (Hsome : forall w' c, getColumnWidth w' col None = Some c
                               <-> widthAt w' col = Some c /\ 0 < c).
  { intros w' c. unfold getColumnWidth. cbn [orZero].
    destruct (widthAt w' col) as [c'|]; [|split; [done | by intros [? _]]].
    destruct (Z.ltb_spec 0 c') as [Hlt|Hle].
    - split; [intros [= ->]; done | by intros [? _]].
    - split; [done | intros [[= ->] ?]; lia]. }
  assert (Hnone : forall w', getColumnWidth w' col None = None
                             <-> ~ exists c, widthAt w' col = Some c /\ 0 < c).
  { intros w'. split.
    - intros Hn (c & Hc). apply Hsome in Hc. congruence.
    - intros Hn. destruct (getColumnWidth w' col None) as [c|] eqn:Hc; [|done].
      exfalso. apply Hn. exists c. by apply Hsome. }
  split; [apply Hsome|]. split; [apply Hnone|]. split.
  - intros H0. apply Hnone. intros (c & Hc & Hpos). rewrite H0 in Hc. injection Hc as <-. lia.
  - intros r.
    destruct (onBeforeColumnResize_forced gen measure p h col size Hh Hg) as (_ & Hres).
    fold r in Hres. split; [exact Hres|].
    intros Hn. rewrite Hres. f_equal. by apply Hnone.
Qed.

(** A measurement surface that reports 0: the double-click answer is
    [undefined] although a size was requested. *)
Lemma getColumnWidth_without_default_witness :
  let r := onBeforeColumnResize columnSamples (fixedWidth 0) 1 (Some 30) true (fresh (grid 3 5)) in
  widthAt (widths (snd r)) 1 = Some 0 /\
  fst r = Ok None /\
  getColumnWidth {[1 := Some 120]} 1 None = Some 120 /\
  getColumnWidth {[1 := Some 0]} 1 None = None.
Proof.
  destruct (getColumnWidth_without_default columnSamples (fixedWidth 0)
              {[1 := Some 0]} 1 (fresh (grid 3 5)) (grid 3 5) (Some 30) eq_refl eq_refl)
    as (_ & _ & Hzero & _ & Hundef).
  split; [reflexivity|]. split.
  - apply Hundef. intros (c & Hc & Hpos).
    vm_compute in Hc. injection Hc as <-. lia.
  - split; [reflexivity|]. apply Hzero. reflexivity.
Defined.

(** ** The scheduler *)

Section SchedulerFacts.

Context {Sample : Type}.
Variable gen : Z -> Range -> list (Z * Sample).
Variable measure : Z -> Sample -> Z.

Implicit Types (p : Plugin Sample) (h : Host) (e : Loop.env).

(** The callback on a host that is gone. *)
Lemma loop_gone e p :
  hot p = None ->
  loop gen measure e p
  = (Ok e, log [ECancelFrame (Loop.timer e)]
             (setFrames (filter (fun x => Some x <> Loop.timer e) (frames p)) p)).
Proof.
  intros Hh. unfold loop, bind at 1, hotGone. rewrite Hh. reflexivity.
Qed.

(** The callback on a live host. *)
Lemma loop_live e p h :
  hot p = Some h ->
  ghostColumns p = [] ->
  let batch := columnsOf (mkRange (Loop.current e)
                            (Z.min (Loop.current e + CALCULATION_STEP) (Loop.length e))) in
  let p1 := afterBatch gen measure (normalize (Loop.rowRange e)) batch p in
  let next := Loop.current e + CALCULATION_STEP + 1 in
  loop gen measure e p
  = if next <? Loop.length e then
      (Ok (Loop.mk (Loop.rowRange e) next (Loop.length e) (Some (nextFrame p))),
       log [ERequestFrame (nextFrame p)]
         (setNextFrame (nextFrame p + 1) (setFrames (frames p ++ [nextFrame p]) p1)))
    else
      (Ok (Loop.mk (Loop.rowRange e) next (Loop.length e) (Loop.timer e)),
       log (finishEvents (Loop.timer e) h)
         (setFrames (framesAfterCancel (Loop.timer e) (frames p)) p1)).
Proof.
  intros Hh Hg batch p1 next.
  unfold loop, bind at 1, hotGone. rewrite Hh. cbn iota.
  unfold bind at 1. rewrite calculateColumnsWidth_forced by done.
  change (normalize (RObject ?r)) with r. fold batch p1 next.
  assert (Hh1 : hot p1 = Some h) by (subst p1; by rewrite afterBatch_hot).
  assert (Hf1 : frames p1 = frames p) by (subst p1; by rewrite afterBatch_frames).
  assert (Hn1 : nextFrame p1 = nextFrame p) by (subst p1; by rewrite afterBatch_nextFrame).
  destruct (next <? Loop.length e).
  - unfold bind, requestAnimationFrame, ret. by rewrite Hf1, Hn1.
  - unfold finishEvents, framesAfterCancel.
    destruct (Loop.timer e) as [t|].
    + unfold bind at 1, cancelAnimationFrame. unfold bind at 1, theHot.
      cbn [hot log setFrames]. rewrite Hh1. unfold bind at 1, emit.
      destruct (needFullRender h); unfold bind, ret, emit;
        rewrite ?log_log, Hf1; reflexivity.
    + unfold bind at 1, ret at 1. unfold bind at 1, theHot. rewrite Hh1.
      unfold bind at 1, emit.
      destruct (needFullRender h); unfold bind, ret, emit; rewrite ?log_log.
      * f_equal. destruct p1; unfold log, setFrames; simpl in *. by rewrite Hf1.
      * f_equal. destruct p1; unfold log, setFrames; simpl in *. by rewrite Hf1.
Qed.

Lemma since_refl p : since p p = [].
Proof. unfold since. apply drop_all. Qed.

(** Callbacks fired on a host that is gone only log their cancel call. *)
Lemma play_ticks_gone (n : nat) e p :
  hot p = None ->
  exists (k : nat) p',
    play gen measure (replicate n Tick) e p = (Ok e, p') /\
    (k <= n)%nat /\
    hot p' = None /\
    widths p' = widths p /\
    ghostColumns p' = ghostColumns p /\
    nextFrame p' = nextFrame p /\
    trace p' = trace p ++ replicate k (ECancelFrame (Loop.timer e)) /\
    (List.length (frames p') + k <= List.length (frames p))%nat /\
    (frames p' = [] \/ k = n) /\
    (frames p <> [] -> n <> 0%nat -> k <> 0%nat).
Proof.
  revert p. induction n as [|n IH]; intros p Hh.
  - exists 0%nat, p. cbn [replicate play]. rewrite app_nil_r.
    repeat split; try done; try lia; by right.
  - cbn [replicate play act]. unfold bind, frame.
    destruct (frames p) as [|hd rest] eqn:Hf.
    + destruct (IH p Hh) as (k & p' & Hplay & Hk & Hh' & Hw & Hg & Hn & Ht & Hlen & Hor & _).
      rewrite Hplay. rewrite Hf in Hlen. cbn [List.length] in Hlen.
      assert (k = 0%nat) as -> by lia.
      exists 0%nat, p'. repeat split; try done; try lia.
      left. destruct (frames p'); [done | cbn [List.length] in Hlen; lia].
    + rewrite loop_gone by done.
      set (p0 := log [ECancelFrame (Loop.timer e)]
                   (setFrames (filter (fun x => Some x <> Loop.timer e)
                                 (frames (setFrames rest p))) (setFrames rest p))).
      assert (Hh0 : hot p0 = None) by done.
      destruct (IH p0 Hh0) as (k & p' & Hplay & Hk & Hh' & Hw & Hg & Hn & Ht & Hlen & Hor & _).
      rewrite Hplay. exists (S k), p'.
      assert (Hlen0 : (List.length (frames p0) <= List.length rest)%nat)
        by apply length_filter.
      repeat split; try done; try lia.
      * rewrite Ht. subst p0. cbn [trace log setFrames]. by rewrite <- app_assoc.
      * cbn [List.length]. lia.
      * destruct Hor as [?| ->]; [by left | by right].
Qed.

Lemma span_step d : 20 < d -> span d = 20 + span (d - 20).
Proof.
  intros Hd. unfold span, CALCULATION_STEP. change (19 + 1) with 20.
  replace (d mod 20) with ((d - 20) mod 20)
    by (replace d with (d - 20 + 1 * 20) at 2 by lia; symmetry; apply Z_mod_plus_full).
  destruct ((d - 20) mod 20 =? 0); lia.
Qed.

Lemma span_last d : 0 < d <= 20 -> span d = Z.min 19 d + 1.
Proof.
  intros Hd. unfold span, CALCULATION_STEP. change (19 + 1) with 20.
  destruct (Z.eq_dec d 20) as [->|Hne]; [reflexivity|].
  rewrite Z.mod_small by lia. destruct (Z.eqb_spec d 0); lia.
Qed.

Lemma span_nonneg d : 0 <= d -> 0 <= span d.
Proof. intros Hd. unfold span. destruct (_ =? _); lia. Qed.

Lemma countEvents_finishEvents t h :
  countEvents isAdjust (@finishEvents Sample t h) = 1%nat.
Proof. unfold finishEvents. by destruct t, (needFullRender h). Qed.

Lemma sampleRequests_finishEvents t h : sampleRequests (@finishEvents Sample t h) = [].
Proof. unfold finishEvents. by destruct t, (needFullRender h). Qed.

(** The frames of a run on a host that stays: from a cursor below
    [length], the pending callbacks visit [span] columns, in order, and
    the last one asks for the layout adjustment. *)
Lemma drain_live (n : nat) : forall (fuel : nat) e p h hd,
  hot p = Some h ->
  ghostColumns p = [] ->
  frames p = [hd] ->
  Loop.timer e = Some hd ->
  Loop.current e < Loop.length e ->
  Loop.length e - Loop.current e <= 20 * Z.of_nat n ->
  (n <= fuel)%nat ->
  exists e' p' evs,
    drain gen measure fuel e p = Some (Ok e', p') /\
    hot p' = Some h /\
    frames p' = [] /\
    ghostColumns p' = [] /\
    trace p' = trace p ++ evs /\
    sampleRequests evs
    = map (fun c => (c, normalize (Loop.rowRange e)))
          (seqZ (Loop.current e) (span (Loop.length e - Loop.current e))) /\
    countEvents isAdjust evs = 1%nat.
Proof.
  induction n as [|n IH]; intros fuel e p h hd Hh Hg Hf Ht Hlt Hle Hfuel; [lia|].
  destruct fuel as [|fuel]; [lia|].
  cbn [drain]. rewrite Hf. unfold frame. rewrite Hf.
  rewrite (loop_live e (setFrames [] p) h Hh Hg). cbv zeta.
  cbn [frames nextFrame setFrames].
  set (batch := columnsOf (mkRange (Loop.current e)
                  (Z.min (Loop.current e + CALCULATION_STEP) (Loop.length e)))).
  set (rows := normalize (Loop.rowRange e)).
  set (p1 := afterBatch gen measure rows batch (setFrames [] p)).
  assert (Hh1 : hot p1 = Some h) by (subst p1; by rewrite afterBatch_hot).
  assert (Hg1 : ghostColumns p1 = []) by (subst p1; by apply afterBatch_ghostColumns).
  assert (Ht1 : trace p1 = trace p ++ batchEvents gen rows batch)
    by (subst p1; by rewrite afterBatch_trace).
  unfold CALCULATION_STEP in *.
  destruct (Z.ltb_spec (Loop.current e + 19 + 1) (Loop.length e)) as [Hmore|Hlast].
  - set (e1 := Loop.mk (Loop.rowRange e) (Loop.current e + 19 + 1) (Loop.length e)
                 (Some (nextFrame p))).
    set (p2 := log [ERequestFrame (nextFrame p)]
                 (setNextFrame (nextFrame p + 1) (setFrames ([] ++ [nextFrame p]) p1))).
    destruct (IH fuel e1 p2 h (nextFrame p)) as (e' & p' & evs & Hrun & Hh' & Hf' & Hg' & Ht' & Hreq & Hadj);
      try done; [cbn [Loop.current Loop.length e1]; lia .. |].
    exists e', p', (batchEvents gen rows batch ++ [ERequestFrame (nextFrame p)] ++ evs).
    split; [exact Hrun|]. do 3 (split; [done|]). split; [|split].
    + rewrite Ht'. subst p2. cbn [trace log setNextFrame setFrames]. rewrite Ht1.
      by rewrite <- !app_assoc.
    + rewrite !sampleRequests_app, sampleRequests_batchEvents, Hreq.
      cbn [Loop.current Loop.length Loop.rowRange e1]. fold rows.
      change (sampleRequests [ERequestFrame (nextFrame p)]) with (@nil (Z * Range)).
      cbn [app]. rewrite <- map_app. f_equal. subst batch. unfold columnsOf. cbn [from to].
      rewrite (span_step (Loop.length e - Loop.current e)) by lia.
      rewrite (seqZ_app (Loop.current e) 20) by (try apply span_nonneg; lia).
      f_equal; [f_equal; lia | f_equal; [lia | f_equal; lia]].
    + rewrite !countEvents_app, Hadj.
      rewrite countEvents_batchEvents by done. reflexivity.
  - set (e1 := Loop.mk (Loop.rowRange e) (Loop.current e + 19 + 1) (Loop.length e)
                 (Loop.timer e)).
    set (p2 := log (finishEvents (Loop.timer e) h)
                 (setFrames (framesAfterCancel (Loop.timer e) []) p1)).
    assert (Hf2 : frames p2 = []) by (subst p2; rewrite Ht; reflexivity).
    exists e1, p2, (batchEvents gen rows batch ++ finishEvents (Loop.timer e) h).
    split; [destruct fuel; cbn [drain]; by rewrite Hf2|].
    do 3 (split; [done|]). split; [|split].
    + subst p2. cbn [trace log setFrames]. rewrite Ht1. by rewrite <- !app_assoc.
    + rewrite sampleRequests_app, sampleRequests_batchEvents, sampleRequests_finishEvents.
      rewrite app_nil_r. f_equal. subst batch. unfold columnsOf. cbn [from to].
      rewrite span_last by lia. f_equal. lia.
    + rewrite countEvents_app, countEvents_finishEvents.
      rewrite countEvents_batchEvents by done. reflexivity.
Qed.

End SchedulerFacts.

(** C9.  On a host with at most one row, [calculateAllColumnsWidth]
    returns without running [loop]: the plugin is left exactly as it was,
    so nothing is measured, no cache entry changes, no frame is scheduled
    and no layout adjustment is asked for, whatever the number of columns;
    with no frame pending the run is over at once. *)
Theorem calculateAllColumnsWidth_single_row {Sample : Type}
    (gen : Z -> Range -> list (Z * Sample)) (measure : Z -> Sample -> Z)
    (rowRange : option RangeArg) (p : Plugin Sample) (h : Host) :
  hot p = Some h ->
  countRows h <= 1 ->
  let r := calculateAllColumnsWidth gen measure rowRange p in
  (exists e, fst r = Ok e) /\
  snd r = p /\
  sampleRequests (since p (snd r)) = [] /\
  registered (since p (snd r)) = [] /\
  widths (snd r) = widths p /\
  countEvents isRequestFrame (since p (snd r)) = 0%nat /\
  countEvents isAdjust (since p (snd r)) = 0%nat /\
  (frames p = [] -> forall fuel, runAllColumnsWidth gen measure fuel rowRange p = Some r).
Proof.
  intros Hh Hrows r.
  assert (Hrun : exists e, r = (Ok e, p)).
  { subst r. unfold calculateAllColumnsWidth, bind at 1.
    assert (Hdef : exists a, defaultRange countRows rowRange p = (Ok a, p)).
    { destruct rowRange as [a|]; [by exists a|].
      eexists. unfold defaultRange, bind, theHot, ret. by rewrite Hh. }
    destruct Hdef as [a ->]. unfold bind, theHot. rewrite Hh. cbn [Loop.current Loop.length].
    destruct (Z.ltb_spec 0 (countRows h - 1)); [lia|]. by eexists. }
  destruct Hrun as [e Hr]. rewrite Hr. cbn [fst snd]. rewrite since_refl.
  repeat split; try done; [by exists e|].
  intros Hf fuel. unfold runAllColumnsWidth. fold r. rewrite Hr.
  destruct fuel; cbn [drain]; by rewrite Hf.
Qed.

Lemma calculateAllColumnsWidth_single_row_witness :
  let r := calculateAllColumnsWidth columnSamples (fixedWidth 50) None (fresh (grid 50 1)) in
  snd r = fresh (grid 50 1) /\
  runAllColumnsWidth columnSamples (fixedWidth 50) 0 None (fresh (grid 50 1)) = Some r.
Proof.
  assert (Hrows : countRows (grid 50 1) <= 1) by (vm_compute; discriminate).
  destruct (calculateAllColumnsWidth_single_row columnSamples (fixedWidth 50) None
              (fresh (grid 50 1)) (grid 50 1) eq_refl Hrows)
    as (_ & Hsame & _ & _ & _ & _ & _ & Hrun).
  split; [exact Hsame | exact (Hrun eq_refl 0%nat)].
Defined.

(** C7.  Once the host reference is gone, every callback the frame
    scheduler still fires returns normally after its one call of
    [cancelAnimationFrame(timer)]: no samples are requested, nothing is
    registered, no frame is requested, no layout adjustment is asked for,
    and the cache stays as the earlier batches left it.  In a run whose
    one frame is pending, that callback cancels the run's handle and
    leaves the queue empty. *)
Theorem host_gone_aborts_run {Sample : Type}
    (gen : Z -> Range -> list (Z * Sample)) (measure : Z -> Sample -> Z)
    (e : Loop.env) (p : Plugin Sample) (n : nat) :
  let r := play gen measure (HostGone :: replicate n Tick) e p in
  fst r = Ok e /\
  widths (snd r) = widths p /\
  sampleRequests (since p (snd r)) = [] /\
  registered (since p (snd r)) = [] /\
  countEvents isRequestFrame (since p (snd r)) = 0%nat /\
  countEvents isAdjust (since p (snd r)) = 0%nat /\
  (exists k : nat,
      (k <= n)%nat /\
      since p (snd r) = replicate k (ECancelFrame (Loop.timer e)) /\
      (List.length (frames (snd r)) + k <= List.length (frames p))%nat /\
      (frames (snd r) = [] \/ k = n)) /\
  (forall hd, frames p = [hd] -> Loop.timer e = Some hd -> n <> 0%nat ->
              since p (snd r) = [ECancelFrame (Some hd)] /\ frames (snd r) = []).
Proof.
  intros r. subst r.
  change (play gen measure (HostGone :: replicate n Tick) e p)
    with (play gen measure (replicate n Tick) e (setHot None p)).
  destruct (play_ticks_gone gen measure n e (setHot None p) eq_refl)
    as (k & p' & Hplay & Hk & _ & Hw & _ & _ & Ht & Hlen & Hor & Hpos).
  rewrite Hplay. cbn [fst snd].
  assert (Hsince : since p p' = replicate k (ECancelFrame (Loop.timer e))).
  { apply since_app. exact Ht. }
  rewrite Hsince.
  assert (Hquiet : let evs := replicate k (@ECancelFrame Sample (Loop.timer e)) in
                   sampleRequests evs = [] /\ registered evs = []
                   /\ countEvents isRequestFrame evs = 0%nat
                   /\ countEvents isAdjust evs = 0%nat).
  { clear. induction k as [|k (H1 & H2 & H3 & H4)]; [done|]. repeat split; assumption. }
  destruct Hquiet as (H1 & H2 & H3 & H4).
  do 6 (split; [done|]). split; [by exists k|].
  intros hd Hf Htimer Hn.
  cbn [frames setHot] in Hlen, Hpos. rewrite Hf in Hlen, Hpos. cbn [List.length] in Hlen.
  assert (k = 1%nat) as -> by (specialize (Hpos ltac:(done) Hn); lia).
  split; [by rewrite <- Htimer|].
  destruct (frames p'); [done | cbn [List.length] in Hlen; lia].
Qed.

(** A grid of 50 rows whose host goes away after the first batch. *)
Lemma host_gone_aborts_run_witness :
  let r0 := calculateAllColumnsWidth columnSamples (fixedWidth 50) None (fresh (grid 50 50)) in
  let e0 := Loop.mk (RObject (mkRange 0 49)) 20 49 (Some 0) in
  let r := play columnSamples (fixedWidth 50) (HostGone :: replicate 3 Tick) e0 (snd r0) in
  fst r0 = Ok e0 /\
  frames (snd r0) = [0] /\
  fst r = Ok e0 /\
  widths (snd r) = widths (snd r0) /\
  since (snd r0) (snd r) = [ECancelFrame (Some 0)] /\
  frames (snd r) = [] /\
  widthAt (widths (snd r)) 19 = Some 50 /\
  widthAt (widths (snd r)) 20 = None.
Proof.
  intros r0 e0 r.
  destruct (host_gone_aborts_run columnSamples (fixedWidth 50) e0 (snd r0) 3)
    as (Hok & Hw & _ & _ & _ & _ & _ & Hone).
  destruct (Hone 0 eq_refl eq_refl ltac:(discriminate)) as (Hsince & Hframes).
  split; [reflexivity|]. split; [reflexivity|]. split; [exact Hok|].
  split; [exact Hw|]. split; [exact Hsince|]. split; [exact Hframes|].
  fold r in Hw. rewrite Hw. split; reflexivity.
Defined.

(** C1, as the code runs.  The run takes its bound from the row count:
    on a host with at least two rows it completes, asks for the samples
    of the columns 0, 1, ... in order, each once, up to index
    [countRows - 1] (or one short of it when that index is a multiple of
    20), and asks for the layout adjustment once, after the last batch.
    The number of columns does not enter. *)
Theorem runAllColumnsWidth_follows_row_count {Sample : Type}
    (gen : Z -> Range -> list (Z * Sample)) (measure : Z -> Sample -> Z)
    (rowRange : option RangeArg) (p : Plugin Sample) (h : Host) (fuel : nat) :
  hot p = Some h ->
  ghostColumns p = [] ->
  frames p = [] ->
  1 < countRows h ->
  (Z.to_nat (countRows h) <= fuel)%nat ->
  exists e' p',
    runAllColumnsWidth gen measure fuel rowRange p = Some (Ok e', p') /\
    sampleRequests (since p p')
    = map (fun c => (c, resolve countRows rowRange h)) (seqZ 0 (span (countRows h - 1))) /\
    countEvents isAdjust (since p p') = 1%nat /\
    frames p' = [].
Proof.
  intros Hh Hg Hf Hrows Hfuel.
  unfold runAllColumnsWidth, calculateAllColumnsWidth, bind at 1.
  assert (Hdef : exists a, defaultRange countRows rowRange p = (Ok a, p)
                           /\ normalize a = resolve countRows rowRange h).
  { destruct rowRange as [a|]; [by exists a|].
    eexists. unfold defaultRange, bind, theHot, ret. by rewrite Hh. }
  destruct Hdef as (a & -> & Ha). unfold bind at 1, theHot. rewrite Hh.
  cbn [Loop.current Loop.length].
  destruct (Z.ltb_spec 0 (countRows h - 1)) as [_|]; [|lia].
  set (e0 := Loop.mk a 0 (countRows h - 1) None).
  rewrite (loop_live gen measure e0 p h Hh Hg). cbv zeta.
  cbn [Loop.current Loop.length Loop.rowRange Loop.timer e0]. rewrite Ha, Hf.
  set (rows := resolve countRows rowRange h).
  set (batch := columnsOf (mkRange 0 (Z.min (0 + CALCULATION_STEP) (countRows h - 1)))).
  set (p1 := afterBatch gen measure rows batch p).
  assert (Hh1 : hot p1 = Some h) by (subst p1; by rewrite afterBatch_hot).
  assert (Hg1 : ghostColumns p1 = []) by (subst p1; by apply afterBatch_ghostColumns).
  assert (Ht1 : trace p1 = trace p ++ batchEvents gen rows batch)
    by (subst p1; by rewrite afterBatch_trace).
  unfold CALCULATION_STEP in *.
  destruct (Z.ltb_spec (0 + 19 + 1) (countRows h - 1)) as [Hmore|Hlast].
  - set (e1 := Loop.mk a (0 + 19 + 1) (countRows h - 1) (Some (nextFrame p))).
    set (p2 := log [ERequestFrame (nextFrame p)]
                 (setNextFrame (nextFrame p + 1) (setFrames ([] ++ [nextFrame p]) p1))).
    assert (Hcur : Loop.current e1 < Loop.length e1) by (cbn [Loop.current Loop.length e1]; lia).
    assert (Hbound : Loop.length e1 - Loop.current e1 <= 20 * Z.of_nat (Z.to_nat (countRows h)))
      by (cbn [Loop.current Loop.length e1]; lia).
    destruct (drain_live gen measure (Z.to_nat (countRows h)) fuel e1 p2 h (nextFrame p)
                Hh1 Hg1 eq_refl eq_refl Hcur Hbound Hfuel)
      as (e' & p' & evs & Hrun & _ & Hf' & _ & Ht' & Hreq & Hadj).
    exists e', p'. split; [exact Hrun|].
    assert (Hsince : since p p' = batchEvents gen rows batch ++ [ERequestFrame (nextFrame p)] ++ evs).
    { apply since_app. rewrite Ht'. subst p2. cbn [trace log setNextFrame setFrames].
      rewrite Ht1. by rewrite <- !app_assoc. }
    rewrite Hsince. split; [|split; [|done]].
    + rewrite !sampleRequests_app, sampleRequests_batchEvents, Hreq.
      cbn [Loop.current Loop.length Loop.rowRange e1]. rewrite Ha. fold rows.
      change (sampleRequests [ERequestFrame (nextFrame p)]) with (@nil (Z * Range)).
      cbn [app]. rewrite <- map_app. f_equal. subst batch. unfold columnsOf. cbn [from to].
      rewrite (span_step (countRows h - 1)) by lia.
      rewrite (seqZ_app 0 20) by (try apply span_nonneg; lia).
      replace (Z.min (0 + 19) (countRows h - 1) - 0 + 1) with 20 by lia.
      replace (countRows h - 1 - (0 + 19 + 1)) with (countRows h - 1 - 20) by lia.
      reflexivity.
    + rewrite !countEvents_app, Hadj.
      rewrite countEvents_batchEvents by done. reflexivity.
  - set (e1 := Loop.mk a (0 + 19 + 1) (countRows h - 1) None).
    set (p2 := log (finishEvents None h) (setFrames (framesAfterCancel None []) p1)).
    assert (Hf2 : frames p2 = []) by reflexivity.
    exists e1, p2. split; [destruct fuel; cbn [drain]; by rewrite Hf2|].
    assert (Hsince : since p p2 = batchEvents gen rows batch ++ finishEvents None h).
    { apply since_app. subst p2. cbn [trace log setFrames]. rewrite Ht1.
      by rewrite <- !app_assoc. }
    rewrite Hsince. split; [|split; [|done]].
    + rewrite sampleRequests_app, sampleRequests_batchEvents, sampleRequests_finishEvents.
      rewrite app_nil_r. f_equal. subst batch. unfold columnsOf. cbn [from to].
      rewrite span_last by lia. f_equal. lia.
    + rewrite countEvents_app, countEvents_finishEvents.
      rewrite countEvents_batchEvents by done. reflexivity.
Qed.

(** Fifty columns and ten rows: the columns 10 to 49 are never visited. *)
Lemma runAllColumnsWidth_follows_row_count_witness :
  exists e' p',
    runAllColumnsWidth columnSamples (fixedWidth 50) 10 None (fresh (grid 50 10))
    = Some (Ok e', p') /\
    sampledColumns (since (fresh (grid 50 10)) p') = [0; 1; 2; 3; 4; 5; 6; 7; 8; 9] /\
    countEvents isAdjust (since (fresh (grid 50 10)) p') = 1%nat.
Proof.
  destruct (runAllColumnsWidth_follows_row_count columnSamples (fixedWidth 50) None
              (fresh (grid 50 10)) (grid 50 10) 10 eq_refl eq_refl eq_refl eq_refl (le_n _))
    as (e' & p' & Hrun & Hreq & Hadj & _).
  exists e', p'. split; [exact Hrun|]. split; [|exact Hadj].
  unfold sampledColumns. rewrite Hreq. reflexivity.
Defined.

(** The example of the specification, with as many rows as columns. *)
Example run_50_columns_50_rows :
  let t := runTrace (runAllColumnsWidth columnSamples (fixedWidth 50) 3 None (fresh (grid 50 50))) in
  sampledColumns t = seqZ 0 50 /\
  countEvents isAdjust t = 1%nat /\
  countEvents isRequestFrame t = 2%nat /\
  last t = Some EAdjustElementsSize.
Proof. vm_compute. repeat split. Qed.

(** Twenty-one columns and rows: the last column, index 20, is left out. *)
Example run_21_columns_21_rows :
  sampledColumns
    (runTrace (runAllColumnsWidth columnSamples (fixedWidth 50) 3 None (fresh (grid 21 21))))
  = seqZ 0 20.
Proof. vm_compute. reflexivity. Qed.

(** Ten columns and fifty rows: indices beyond the last column are sampled. *)
Example run_10_columns_50_rows :
  sampledColumns
    (runTrace (runAllColumnsWidth columnSamples (fixedWidth 50) 3 None (fresh (grid 10 50))))
  = seqZ 0 50.
Proof. vm_compute. reflexivity. Qed.

(** * Further properties of the engine *)

Section EngineMore.

Context {Sample : Type}.
Variable gen : Z -> Range -> list (Z * Sample).
Variable measure : Z -> Sample -> Z.

Implicit Types (p : Plugin Sample) (h : Host) (rows : Range) (cols : list Z).

(** The flush at the end of [calculateColumnsWidth], whatever is registered. *)
Lemma flush_and_clean p :
  exists p',
    (n <- ghostColumnsLength ;;
     if (n =? 0)%nat then ret tt else ghostGetWidths measure writeWidth ;;; ghostClean) p
    = (Ok tt, p') /\
    hot p' = hot p /\
    ghostColumns p' = [] /\
    frames p' = frames p /\
    nextFrame p' = nextFrame p /\
    widths p' = flush measure (ghostColumns p) (widths p).
Proof.
  unfold bind at 1. unfold ghostColumnsLength.
  destruct (ghostColumns p) as [|c g] eqn:Hg; cbn [List.length Nat.eqb].
  - exists p. unfold ret. by rewrite Hg.
  - unfold ghostGetWidths, bind, emit. cbn [ghostColumns log]. rewrite Hg.
    rewrite forEach_writeWidth. eexists. split; [reflexivity|]. by repeat split.
Qed.

Lemma flush_app (g1 g2 : list (Z * Sample)) (w : gmap Z JsNum) :
  flush measure (g1 ++ g2) w = flush measure g2 (flush measure g1 w).
Proof. unfold flush. apply fold_left_app. Qed.

Lemma registrations_app rows cols1 cols2 :
  registrations gen rows (cols1 ++ cols2)
  = registrations gen rows cols1 ++ registrations gen rows cols2.
Proof. unfold registrations. apply flat_map_app. Qed.

Lemma NoDup_filter_bool (f : Z -> bool) (l : list Z) : NoDup l -> NoDup (List.filter f l).
Proof.
  induction 1 as [|x l Hx Hl IH]; cbn [List.filter]; [constructor|].
  destruct (f x); [|done]. constructor; [|done].
  rewrite elem_of_filter_bool. by intros [? _].
Qed.

(** With distinct keys, the flush leaves for each key the width measured
    from its own samples. *)
Lemma flush_measured (g : list (Z * Sample)) (w : gmap Z JsNum) col s :
  NoDup (map fst g) -> (col, s) ∈ g ->
  flush measure g w !! col = Some (Some (measure col s)).
Proof.
  revert w. induction g as [|[c x] g IH]; intros w Hnd Hin.
  - by apply elem_of_nil in Hin.
  - cbn [map fst] in Hnd. apply NoDup_cons in Hnd as [Hc Hnd].
    change (flush measure ((c, x) :: g) w)
      with (flush measure g (<[c := Some (measure c x)]> w)).
    apply elem_of_cons in Hin as [Heq|Hin].
    + injection Heq as -> ->. rewrite flush_other by done. by rewrite lookup_insert_eq.
    + by apply IH.
Qed.

End EngineMore.

(** X1.  On a live host a call of [calculateColumnsWidth] always ends with
    no column registered at the measurement surface: whatever was
    registered before the call, or is registered by it, is flushed into
    the cache and cleaned. *)
Theorem calculateColumnsWidth_leaves_no_registration {Sample : Type}
    (gen : Z -> Range -> list (Z * Sample)) (measure : Z -> Sample -> Z)
    (colRange rowRange : option RangeArg) (force : bool) (p : Plugin Sample) (h : Host) :
  hot p = Some h ->
  let r := calculateColumnsWidth gen measure colRange rowRange force p in
  let cols := List.filter (stale force p) (columnsOf (resolve countCols colRange h)) in
  fst r = Ok tt /\
  ghostColumns (snd r) = [] /\
  widths (snd r)
  = flush measure (ghostColumns p ++ registrations gen (resolve countRows rowRange h) cols)
      (widths p).
Proof.
  intros Hh r cols.
  assert (Hrun : exists p',
             r = (Ok tt, p') /\ ghostColumns p' = [] /\
             widths p' = flush measure
                           (ghostColumns p ++ registrations gen (resolve countRows rowRange h) cols)
                           (widths p)).
  { subst r. unfold calculateColumnsWidth.
    assert (Hdef : forall count a,
               defaultRange count a p
               = (Ok (match a with Some x => x | None => RObject (mkRange 0 (count h - 1)) end), p)).
    { intros count [a|]; [done|]. unfold defaultRange, bind, theHot, ret. by rewrite Hh. }
    unfold bind at 1. rewrite Hdef. unfold bind at 1. rewrite Hdef.
    unfold bind at 1, rangeEach.
    rewrite forEach_measureColumn by (right; by rewrite Hh).
    replace (normalize match rowRange with Some a => a | None => RObject (mkRange 0 (countRows h - 1)) end)
      with (resolve countRows rowRange h) by (by destruct rowRange).
    replace (normalize match colRange with Some a => a | None => RObject (mkRange 0 (countCols h - 1)) end)
      with (resolve countCols colRange h) by (by destruct colRange).
    fold (columnsOf (resolve countCols colRange h)). fold cols.
    destruct (flush_and_clean measure
                (log (sampleEvents gen (resolve countRows rowRange h) cols)
                   (setGhostColumns
                      (ghostColumns p ++ registrations gen (resolve countRows rowRange h) cols) p)))
      as (p' & Hrun & _ & Hg & _ & _ & Hw).
    exists p'. rewrite Hrun. by repeat split. }
  destruct Hrun as (p' & -> & Hg & Hw). by repeat split.
Qed.

Lemma calculateColumnsWidth_leaves_no_registration_witness :
  let p := mkPlugin (Some (grid 3 2)) ∅ [(7, mkRange 0 0)] [] 0 [] in
  let r := calculateColumnsWidth columnSamples (fixedWidth 50) None None false p in
  ghostColumns (snd r) = [] /\
  widthAt (widths (snd r)) 7 = Some 50 /\
  widthAt (widths (snd r)) 2 = Some 50.
Proof.
  intros p r.
  destruct (calculateColumnsWidth_leaves_no_registration columnSamples (fixedWidth 50)
              None None false p (grid 3 2) eq_refl) as (_ & Hg & Hw).
  split; [exact Hg|]. fold r in Hw. rewrite Hw. split; reflexivity.
Defined.

(** X2.  A range whose [to] lies below its [from] is empty: on a live host
    with nothing registered the call returns normally and leaves the
    plugin exactly as it was, forced or not. *)
Theorem calculateColumnsWidth_inverted_range {Sample : Type}
    (gen : Z -> Range -> list (Z * Sample)) (measure : Z -> Sample -> Z)
    (colRange : Range) (rowRange : option RangeArg) (force : bool)
    (p : Plugin Sample) (h : Host) :
  hot p = Some h ->
  ghostColumns p = [] ->
  to colRange < from colRange ->
  calculateColumnsWidth gen measure (Some (RObject colRange)) rowRange force p = (Ok tt, p).
Proof.
  intros Hh Hg Hinv.
  rewrite (calculateColumnsWidth_run gen measure _ rowRange force p h Hh Hg).
  cbn [resolve normalize]. unfold columnsOf. rewrite seqZ_nil by lia.
  cbn [List.filter]. unfold afterBatch. cbn [registrations flat_map sampleEvents].
  by rewrite log_nil.
Qed.

Lemma calculateColumnsWidth_inverted_range_witness :
  calculateColumnsWidth columnSamples (fixedWidth 50)
    (Some (RObject (mkRange 5 2))) None true (cached (grid 9 9) {[1 := Some 70]})
  = (Ok tt, cached (grid 9 9) {[1 := Some 70]}).
Proof.
  apply (calculateColumnsWidth_inverted_range columnSamples (fixedWidth 50)
           (mkRange 5 2) None true (cached (grid 9 9) {[1 := Some 70]}) (grid 9 9)
           eq_refl eq_refl).
  vm_compute. reflexivity.
Defined.

Section EngineKeyed.

Context {Sample : Type}.
Variable gen : Z -> Range -> list (Z * Sample).
Variable measure : Z -> Sample -> Z.

(** The repository's selector: one entry per requested column, keyed by it. *)
Hypothesis gen_keyed : forall col rows, map fst (gen col rows) = [col].

Lemma gen_single col rows : exists s, gen col rows = [(col, s)].
Proof.
  pose proof (gen_keyed col rows) as Hk.
  destruct (gen col rows) as [|[c s] [|? ?]]; try discriminate Hk.
  injection Hk as ->. by exists s.
Qed.

(** The cache after a call, column by column. *)
Lemma calculateColumnsWidth_entry colRange rowRange force (p : Plugin Sample) h col :
  hot p = Some h ->
  ghostColumns p = [] ->
  let r := calculateColumnsWidth gen measure colRange rowRange force p in
  (col ∉ sampledColumns (since p (snd r)) -> widths (snd r) !! col = widths p !! col) /\
  (col ∈ sampledColumns (since p (snd r)) ->
   exists s, gen col (resolve countRows rowRange h) = [(col, s)] /\
             widths (snd r) !! col = Some (Some (measure col s))).
Proof.
  intros Hh Hg r.
  destruct (calculateColumnsWidth_since gen measure colRange rowRange force p h Hh Hg)
    as (_ & _ & _ & _ & Hw & Hsince).
  fold r in Hw, Hsince. rewrite Hw, Hsince, sampledColumns_batchEvents.
  set (cols := List.filter (stale force p) (columnsOf (resolve countCols colRange h))).
  split.
  - intros Hnot. apply flush_other. by rewrite (registrations_keyed gen gen_keyed).
  - intros Hin. destruct (gen_single col (resolve countRows rowRange h)) as [s Hs].
    exists s. split; [done|]. apply flush_measured.
    + rewrite (registrations_keyed gen gen_keyed). subst cols.
      apply NoDup_filter_bool, NoDup_seqZ.
    + apply registrations_elem with col; [done|]. rewrite Hs. apply list_elem_of_here.
Qed.

End EngineKeyed.

(** X3.  With the repository's selector, a call of [calculateColumnsWidth]
    on a live host changes the cache entry of no column but those it asked
    samples for; in particular an unforced call never overwrites a cached
    width, and no call touches a column outside its range. *)
Theorem calculateColumnsWidth_writes_only_sampled {Sample : Type}
    (gen : Z -> Range -> list (Z * Sample)) (measure : Z -> Sample -> Z)
    (colRange rowRange : option RangeArg) (force : bool)
    (p : Plugin Sample) (h : Host) (col : Z) :
  (forall c rows, map fst (gen c rows) = [c]) ->
  hot p = Some h ->
  ghostColumns p = [] ->
  let r := calculateColumnsWidth gen measure colRange rowRange force p in
  (col ∉ sampledColumns (since p (snd r)) -> widths (snd r) !! col = widths p !! col) /\
  (col ∉ columnsOf (resolve countCols colRange h) -> widths (snd r) !! col = widths p !! col) /\
  (force = false -> is_Some (widthAt (widths p) col) ->
   widths (snd r) !! col = widths p !! col).
Proof.
  intros Hkey Hh Hg r.
  destruct (calculateColumnsWidth_entry gen measure Hkey colRange rowRange force p h col Hh Hg)
    as (Hother & _).
  fold r in Hother.
  destruct (calculateColumnsWidth_since gen measure colRange rowRange force p h Hh Hg)
    as (_ & _ & _ & _ & _ & Hsince).
  fold r in Hsince.
  split; [exact Hother|]. split.
  - intros Hout. apply Hother. rewrite Hsince, sampledColumns_batchEvents, elem_of_filter_bool.
    by intros [? _].
  - intros -> Hc. apply Hother. rewrite Hsince, sampledColumns_batchEvents, elem_of_filter_bool.
    intros [_ Hs].
    assert (stale false p col = false) by (apply (stale_false_iff p h col Hh); by left).
    congruence.
Qed.

Lemma calculateColumnsWidth_writes_only_sampled_witness :
  let p := cached (grid 4 3) {[1 := Some 70; 9 := Some 33]} in
  let r := calculateColumnsWidth columnSamples (fixedWidth 50)
             (Some (RObject (mkRange 0 3))) None false p in
  widths (snd r) !! 1 = Some (Some 70) /\
  widths (snd r) !! 9 = Some (Some 33) /\
  widths (snd r) !! 2 = Some (Some 50).
Proof.
  intros p r.
  destruct (calculateColumnsWidth_writes_only_sampled columnSamples (fixedWidth 50)
              (Some (RObject (mkRange 0 3))) None false p (grid 4 3) 1
              (fun _ _ => eq_refl) eq_refl eq_refl) as (_ & _ & Hkeep).
  split; [|split; reflexivity].
  exact (eq_trans (Hkeep eq_refl (ex_intro _ 70 eq_refl)) eq_refl).
Defined.

(** X4.  With the repository's selector, every column a call asked samples
    for ends with the width measured from those samples in the cache, and
    the width the host is then given for a numeric default [d] is the
    larger of [d] and that measured width. *)
Theorem calculateColumnsWidth_caches_measured {Sample : Type}
    (gen : Z -> Range -> list (Z * Sample)) (measure : Z -> Sample -> Z)
    (colRange rowRange : option RangeArg) (force : bool)
    (p : Plugin Sample) (h : Host) (col : Z) :
  (forall c rows, map fst (gen c rows) = [c]) ->
  hot p = Some h ->
  ghostColumns p = [] ->
  let r := calculateColumnsWidth gen measure colRange rowRange force p in
  col ∈ sampledColumns (since p (snd r)) ->
  exists s,
    gen col (resolve countRows rowRange h) = [(col, s)] /\
    widthAt (widths (snd r)) col = Some (measure col s) /\
    forall d, getColumnWidth (widths (snd r)) col (Some d) = Some (Z.max d (measure col s)).
Proof.
  intros Hkey Hh Hg r Hin.
  destruct (calculateColumnsWidth_entry gen measure Hkey colRange rowRange force p h col Hh Hg)
    as (_ & Hmeasured).
  destruct (Hmeasured Hin) as (s & Hs & Hw). fold r in Hw.
  exists s. split; [done|].
  assert (Hat : widthAt (widths (snd r)) col = Some (measure col s))
    by (unfold widthAt; by rewrite Hw).
  split; [done|]. intros d. rewrite getColumnWidth_number, Hat.
  destruct (Z.ltb_spec d (measure col s)); f_equal; lia.
Qed.

Lemma calculateColumnsWidth_caches_measured_witness :
  let p := cached (declaredGrid 4 3 (fun _ => Some 100)) {[2 := Some 70]} in
  let r := calculateColumnsWidth columnSamples (fixedWidth 50)
             (Some (RNumber 2)) None true p in
  widthAt (widths (snd r)) 2 = Some 50 /\
  getColumnWidth (widths (snd r)) 2 (Some 80) = Some 80 /\
  getColumnWidth (widths (snd r)) 2 (Some 20) = Some 50.
Proof.
  intros p r.
  assert (Hin : 2 ∈ sampledColumns (since p (snd r)))
    by (apply list_elem_of_In; vm_compute; tauto).
  destruct (calculateColumnsWidth_caches_measured columnSamples (fixedWidth 50)
              (Some (RNumber 2)) None true p (declaredGrid 4 3 (fun _ => Some 100)) 2
              (fun _ _ => eq_refl) eq_refl eq_refl Hin) as (s & _ & Hat & Hget).
  split; [exact Hat|]. split; [exact (Hget 80) | exact (Hget 20)].
Defined.

Section GoneHost.

Context {Sample : Type}.
Variable gen : Z -> Range -> list (Z * Sample).
Variable measure : Z -> Sample -> Z.

(** The unforced [rangeEach] on a host that is gone: it gets as far as the
    first column without a cached width. *)
Lemma forEach_measureColumn_gone rows (cols : list Z) (p : Plugin Sample) :
  hot p = None ->
  forEach cols (measureColumn gen rows false) p
  = (if forallb (fun c => bool_decide (is_Some (widthAt (widths p) c))) cols
     then Ok tt else TypeError, p).
Proof.
  intros Hh. induction cols as [|c cols IH]; [done|].
  cbn [forEach forallb].
  assert (Hm : measureColumn gen rows false c p
               = (if widthAt (widths p) c is Some _ then Ok tt else TypeError, p)).
  { unfold measureColumn, mustMeasure, bind, readWidth.
    destruct (widthAt (widths p) c); [reflexivity|].
    unfold theHot. by rewrite Hh. }
  unfold bind at 1. rewrite Hm.
  destruct (widthAt (widths p) c) as [w|] eqn:Hc.
  - rewrite bool_decide_eq_true_2 by (by eexists). exact IH.
  - rewrite bool_decide_eq_false_2 by (by intros [? ?]). reflexivity.
Qed.

End GoneHost.

(** X5.  An unforced call with both ranges given, on a plugin whose host is
    gone and with nothing registered, never changes the plugin.  It returns
    normally exactly when every column of the range has a cached width;
    otherwise the read of the host's declared width faults. *)
Theorem calculateColumnsWidth_unforced_host_gone {Sample : Type}
    (gen : Z -> Range -> list (Z * Sample)) (measure : Z -> Sample -> Z)
    (colRange rowRange : RangeArg) (p : Plugin Sample) :
  hot p = None ->
  ghostColumns p = [] ->
  let r := calculateColumnsWidth gen measure (Some colRange) (Some rowRange) false p in
  snd r = p /\
  (fst r = Ok tt
   <-> forall col, col ∈ columnsOf (normalize colRange) -> is_Some (widthAt (widths p) col)) /\
  (fst r = TypeError
   <-> exists col, col ∈ columnsOf (normalize colRange) /\ widthAt (widths p) col = None).
Proof.
  intros Hh Hg r.
  set (ok := forallb (fun c => bool_decide (is_Some (widthAt (widths p) c)))
               (columnsOf (normalize colRange))).
  assert (Hr : r = (if ok then Ok tt else TypeError, p)).
  { subst r. unfold calculateColumnsWidth, defaultRange.
    unfold bind at 1, ret at 1. unfold bind at 1, ret at 1.
    unfold bind at 1, rangeEach.
    rewrite (forEach_measureColumn_gone gen) by done.
    fold (columnsOf (normalize colRange)). fold ok.
    destruct ok; [|done].
    unfold bind, ghostColumnsLength. rewrite Hg. reflexivity. }
  rewrite Hr. cbn [fst snd]. split; [done|].
  assert (Hok : ok = true <-> forall col, col ∈ columnsOf (normalize colRange) ->
                                          is_Some (widthAt (widths p) col)).
  { subst ok. rewrite forallb_forall. split.
    - intros Hall col Hin. apply list_elem_of_In in Hin.
      eapply bool_decide_eq_true_1, Hall, Hin.
    - intros Hall col Hin. apply bool_decide_eq_true_2, Hall. by apply list_elem_of_In. }
  split.
  - rewrite <- Hok. by destruct ok.
  - split.
    + intros Hf. destruct ok eqn:Hk; [done|].
      destruct (decide (Exists (fun c => widthAt (widths p) c = None)
                          (columnsOf (normalize colRange)))) as [Hex|Hnex].
      * apply Exists_exists in Hex. exact Hex.
      * exfalso. assert (false = true) as Habs; [|done].
        apply Hok. intros col Hin.
        destruct (widthAt (widths p) col) as [w|] eqn:Hc; [by eexists|].
        exfalso. apply Hnex, Exists_exists. by exists col.
    + intros (col & Hin & Hnone). destruct ok eqn:Hk; [|done].
      destruct (proj1 Hok eq_refl col Hin) as [w Hw]. congruence.
Qed.

Lemma calculateColumnsWidth_unforced_host_gone_witness :
  let p : Plugin Range := mkPlugin None {[0 := Some 70; 1 := Some 80]} [] [] 0 [] in
  fst (calculateColumnsWidth columnSamples (fixedWidth 50)
         (Some (RObject (mkRange 0 1))) (Some (RNumber 0)) false p) = Ok tt /\
  fst (calculateColumnsWidth columnSamples (fixedWidth 50)
         (Some (RObject (mkRange 0 2))) (Some (RNumber 0)) false p) = TypeError /\
  snd (calculateColumnsWidth columnSamples (fixedWidth 50)
         (Some (RObject (mkRange 0 2))) (Some (RNumber 0)) false p) = p.
Proof.
  intros p.
  destruct (calculateColumnsWidth_unforced_host_gone columnSamples (fixedWidth 50)
              (RObject (mkRange 0 2)) (RNumber 0) p eq_refl eq_refl) as (Hsame & _ & _).
  split; [reflexivity|]. split; [reflexivity | exact Hsame].
Defined.

(** X6.  Feeding the answer of [getColumnWidth] back as the default gives
    the same answer: the modify-column-width hook can be applied any number
    of times. *)
Theorem getColumnWidth_idempotent (w : gmap Z JsNum) (col : Z) (d : JsNum) :
  getColumnWidth w col (getColumnWidth w col d) = getColumnWidth w col d.
Proof.
  unfold getColumnWidth. destruct (widthAt w col) as [c|]; [|done].
  destruct (orZero d <? c) eqn:Hlt.
  - by rewrite orZero_number, Z.ltb_irrefl.
  - by rewrite Hlt.
Qed.

(** X7.  After [clearCache()] no column index holds a width, so every
    column falls back to its default; keys of the array that are not array
    indices, such as -1, are not removed by the truncation. *)
Theorem clearCache_truncates {Sample : Type} (p : Plugin Sample) (col : Z) (d : JsNum) :
  let r := clearCache p in
  fst r = Ok tt /\
  (isArrayIndex col = true ->
   widthAt (widths (snd r)) col = None /\ getColumnWidth (widths (snd r)) col d = d) /\
  (isArrayIndex col = false -> widths (snd r) !! col = widths p !! col) /\
  hot (snd r) = hot p /\ frames (snd r) = frames p /\ trace (snd r) = trace p.
Proof.
  cbv zeta. cbn [clearCache fst snd setWidths widths hot frames trace].
  split; [done|]. split; [|split; [|done]].
  - intros Hidx.
    assert (Hnone : setLengthZero (widths p) !! col = None).
    { unfold setLengthZero. apply map_lookup_filter_None. right.
      intros x _. cbn [fst]. congruence. }
    assert (Hat : widthAt (setLengthZero (widths p)) col = None)
      by (unfold widthAt; by rewrite Hnone).
    split; [done|]. unfold getColumnWidth. by rewrite Hat.
  - intros Hidx. unfold setLengthZero.
    destruct (widths p !! col) as [x|] eqn:Hx.
    + by apply map_lookup_filter_Some.
    + apply map_lookup_filter_None. by left.
Qed.

Lemma clearCache_truncates_witness :
  let p := cached (grid 4 3) {[2 := Some 70; -1 := Some 50]} in
  widthAt (widths (snd (clearCache p))) 2 = None /\
  getColumnWidth (widths (snd (clearCache p))) 2 (Some 40) = Some 40 /\
  widths (snd (clearCache p)) !! (-1) = Some (Some 50).
Proof.
  intros p.
  destruct (clearCache_truncates p 2 (Some 40)) as (_ & Hidx & _).
  destruct (clearCache_truncates p (-1) None) as (_ & _ & Hkeep & _).
  destruct (Hidx eq_refl) as (Hnone & Hget).
  split; [exact Hnone|]. split; [exact Hget|].
  exact (eq_trans (Hkeep eq_refl) eq_refl).
Defined.

(** * Further properties of the hooks *)

(** X8.  The before-change hook looks at the columns of the edits only:
    two lists of edits that touch the same columns, in any order and with
    any repetition, leave the same cache. *)
Theorem onBeforeChange_same_columns {V : Type}
    (changes1 changes2 : list (Change V)) (w : gmap Z JsNum) :
  (forall col, col ∈ map chCol changes1 <-> col ∈ map chCol changes2) ->
  onBeforeChange changes1 w = onBeforeChange changes2 w.
Proof.
  intros Hsame. apply map_eq. intros col.
  destruct (decide (col ∈ map chCol changes1)) as [Hin|Hnot].
  - rewrite !onBeforeChange_edited; [done | by apply Hsame | done].
  - rewrite !onBeforeChange_other; [done | by rewrite <- Hsame | done].
Qed.

Lemma onBeforeChange_same_columns_witness :
  onBeforeChange [mkChange 2 3 tt tt; mkChange 0 1 tt tt; mkChange 5 3 tt tt]
    ({[1 := Some 40; 3 := Some 120; 4 := Some 90]} : gmap Z JsNum)
  = onBeforeChange [mkChange 9 1 tt tt; mkChange 9 3 tt tt]
      {[1 := Some 40; 3 := Some 120; 4 := Some 90]}.
Proof.
  apply (onBeforeChange_same_columns
           [mkChange 2 3 tt tt; mkChange 0 1 tt tt; mkChange 5 3 tt tt]
           [mkChange 9 1 tt tt; mkChange 9 3 tt tt]).
  intros col. rewrite !list_elem_of_In. simpl. tauto.
Defined.

(** X9.  Once the before-change hook has seen an edit in a column, the
    width the host is given for that column is the default it passes in,
    whatever was cached; for every other column the answer is what it was
    before the edits.  The hook reads no host property, so it returns
    normally also when the host is gone. *)
Theorem beforeChange_falls_back_to_default {Sample V : Type}
    (changes : list (Change V)) (p : Plugin Sample) (col : Z) (d : JsNum) :
  let r := beforeChange changes p in
  fst r = Ok tt /\
  (col ∈ map chCol changes -> getColumnWidth (widths (snd r)) col d = d) /\
  (col ∉ map chCol changes ->
   getColumnWidth (widths (snd r)) col d = getColumnWidth (widths p) col d).
Proof.
  cbv zeta. cbn [beforeChange fst snd setWidths widths]. split; [done|]. split.
  - intros Hin. unfold getColumnWidth, widthAt. by rewrite onBeforeChange_edited.
  - intros Hnot. unfold getColumnWidth, widthAt. by rewrite onBeforeChange_other.
Qed.

Lemma beforeChange_falls_back_to_default_witness :
  let p : Plugin Range := mkPlugin None {[3 := Some 120; 4 := Some 90]} [] [] 0 [] in
  let r := beforeChange [mkChange 2 3 tt tt] p in
  fst r = Ok tt /\
  getColumnWidth (widths p) 3 (Some 80) = Some 120 /\
  getColumnWidth (widths (snd r)) 3 (Some 80) = Some 80 /\
  getColumnWidth (widths (snd r)) 4 (Some 80) = Some 90.
Proof.
  intros p r.
  destruct (beforeChange_falls_back_to_default [mkChange 2 3 tt tt] p 3 (Some 80))
    as (Hok & Hedited & _).
  split; [exact Hok|]. split; [reflexivity|]. split; [|reflexivity].
  apply Hedited. apply list_elem_of_here.
Defined.

(** X10.  A render on a live host asks samples only for columns between
    the first and the last visible one, for each of them at most once and
    always over all rows, so never for more columns than are visible; a
    forced render asks for every visible column. *)
Theorem onBeforeRender_within_viewport {Sample : Type}
    (gen : Z -> Range -> list (Z * Sample)) (measure : Z -> Sample -> Z)
    (p : Plugin Sample) (h : Host) :
  hot p = Some h ->
  ghostColumns p = [] ->
  let r := onBeforeRender gen measure p in
  let first := firstVisibleColumn (wt h) in
  let last := lastVisibleColumn (wt h) in
  let sampled := sampledColumns (since p (snd r)) in
  fst r = Ok tt /\
  NoDup sampled /\
  (forall col, col ∈ sampled -> first <= col <= last) /\
  (List.length sampled <= Z.to_nat (last - first + 1))%nat /\
  (forall req, req ∈ sampleRequests (since p (snd r)) ->
               snd req = mkRange 0 (countRows h - 1)) /\
  (renderCall h = true -> sampled = seqZ first (last - first + 1)).
Proof.
  intros Hh Hg r first last sampled. subst r sampled.
  rewrite (onBeforeRender_run gen measure p h Hh).
  destruct (calculateColumnsWidth_since gen measure
              (Some (RObject (mkRange first last))) None (renderCall h) p h Hh Hg)
    as (Hok & _ & _ & _ & _ & Hsince).
  fold first last. rewrite Hok, Hsince, sampledColumns_batchEvents, sampleRequests_batchEvents.
  change (columnsOf (resolve countCols (Some (RObject (mkRange first last))) h))
    with (seqZ first (last - first + 1)).
  split; [done|]. split; [apply NoDup_filter_bool, NoDup_seqZ|]. split; [|split; [|split]].
  - intros col Hin. apply elem_of_filter_bool in Hin as [Hin _].
    apply elem_of_seqZ in Hin. lia.
  - etransitivity; [apply List.filter_length_le|]. by rewrite length_seqZ.
  - intros req Hin. apply list_elem_of_fmap in Hin as (c & -> & _). reflexivity.
  - intros ->. apply stale_forced.
Qed.

Lemma onBeforeRender_within_viewport_witness :
  let h := mkHost 30 8 (fun c => if c =? 5 then Some 100 else None) false
             (mkViewport true true 4 7 2 9) false in
  let p := cached h {[6 := Some 70]} in
  sampledColumns (since p (snd (onBeforeRender columnSamples (fixedWidth 50) p))) = [4; 7].
Proof.
  intros h p.
  destruct (onBeforeRender_within_viewport columnSamples (fixedWidth 50) p h eq_refl eq_refl)
    as (_ & _ & Hin & _).
  assert (4 <= 4 <= 7) as _ by (apply Hin; apply list_elem_of_In; vm_compute; tauto).
  reflexivity.
Defined.

(** X11.  Edit, then render: with the repository's selector, a column that
    was edited, is visible and has no non-zero declared width is measured
    by the next render, forced or not, and ends with the width measured
    from its samples over all rows. *)
Theorem edited_column_remeasured_on_render {Sample V : Type}
    (gen : Z -> Range -> list (Z * Sample)) (measure : Z -> Sample -> Z)
    (changes : list (Change V)) (p : Plugin Sample) (h : Host) (col : Z) :
  (forall c rows, map fst (gen c rows) = [c]) ->
  hot p = Some h ->
  ghostColumns p = [] ->
  col ∈ map chCol changes ->
  firstVisibleColumn (wt h) <= col <= lastVisibleColumn (wt h) ->
  truthy (getColWidthFromSettings h col) = false ->
  let p1 := snd (beforeChange changes p) in
  let r := onBeforeRender gen measure p1 in
  fst r = Ok tt /\
  exists s,
    gen col (mkRange 0 (countRows h - 1)) = [(col, s)] /\
    widthAt (widths (snd r)) col = Some (measure col s).
Proof.
  intros Hkey Hh Hg Hin Hvis Hdecl p1 r.
  assert (Hh1 : hot p1 = Some h) by done.
  assert (Hg1 : ghostColumns p1 = []) by done.
  subst r. rewrite (onBeforeRender_run gen measure p1 h Hh1).
  set (colRange := Some (RObject (mkRange (firstVisibleColumn (wt h))
                                    (lastVisibleColumn (wt h))))).
  destruct (calculateColumnsWidth_since gen measure colRange None (renderCall h) p1 h Hh1 Hg1)
    as (Hok & _ & _ & _ & _ & Hsince).
  split; [done|].
  destruct (calculateColumnsWidth_entry gen measure Hkey colRange None (renderCall h)
              p1 h col Hh1 Hg1) as (_ & Hmeasured).
  destruct Hmeasured as (s & Hs & Hw).
  - rewrite Hsince, sampledColumns_batchEvents, elem_of_filter_bool. split.
    + apply elem_of_seqZ. subst colRange. cbn [resolve normalize from to]. lia.
    + unfold stale. rewrite Hh1.
      assert (Hnone : widthAt (widths p1) col = None).
      { unfold widthAt. subst p1. cbn [beforeChange snd setWidths widths].
        by rewrite onBeforeChange_edited. }
      rewrite Hnone, Hdecl. by destruct (renderCall h).
  - exists s. split; [exact Hs|]. unfold widthAt. by rewrite Hw.
Qed.

Lemma edited_column_remeasured_on_render_witness :
  let h := mkHost 30 8 (fun _ => None) false (mkViewport true true 0 9 0 12) false in
  let p := cached h {[3 := Some 120]} in
  let r := onBeforeRender columnSamples (fixedWidth 50)
             (snd (beforeChange [mkChange 2 3 tt tt] p)) in
  widthAt (widths p) 3 = Some 120 /\ widthAt (widths (snd r)) 3 = Some 50.
Proof.
  intros h p r.
  assert (Hvis : firstVisibleColumn (wt h) <= 3 <= lastVisibleColumn (wt h))
    by (vm_compute; split; discriminate).
  destruct (edited_column_remeasured_on_render columnSamples (fixedWidth 50)
              [mkChange 2 3 tt tt] p h 3 (fun _ _ => eq_refl) eq_refl eq_refl
              (list_elem_of_here _ _) Hvis eq_refl) as (_ & s & _ & Hw).
  split; [reflexivity | exact Hw].
Defined.

Section LoadFacts.

Context {Sample : Type}.
Variable gen : Z -> Range -> list (Z * Sample).
Variable measure : Z -> Sample -> Z.

(** On a live host the first, synchronous part of a run returns normally. *)
Lemma calculateAllColumnsWidth_live rowRange (p : Plugin Sample) h :
  hot p = Some h ->
  ghostColumns p = [] ->
  exists e p', calculateAllColumnsWidth gen measure rowRange p = (Ok e, p')
               /\ hot p' = Some h /\ ghostColumns p' = [].
Proof.
  intros Hh Hg. unfold calculateAllColumnsWidth, bind at 1.
  assert (Hdef : exists a, defaultRange countRows rowRange p = (Ok a, p)).
  { destruct rowRange as [a|]; [by exists a|].
    eexists. unfold defaultRange, bind, theHot, ret. by rewrite Hh. }
  destruct Hdef as [a ->]. unfold bind at 1, theHot. rewrite Hh.
  cbn [Loop.current Loop.length].
  destruct (0 <? countRows h - 1); [|by exists (Loop.mk a 0 (countRows h - 1) None), p].
  rewrite (loop_live gen measure _ p h Hh Hg). cbv zeta.
  destruct (_ <? _); eexists _, _; (split; [reflexivity|]);
    cbn [hot ghostColumns log setNextFrame setFrames];
    by rewrite afterBatch_hot, afterBatch_ghostColumns.
Qed.

End LoadFacts.

(** X12.  The task deferred after a data load never faults.  When the host
    is gone by the time it runs, it does nothing at all; on a live host it
    is exactly a call of [calculateAllColumnsWidth()] with all rows. *)
Theorem onAfterLoadData_guarded {Sample : Type}
    (gen : Z -> Range -> list (Z * Sample)) (measure : Z -> Sample -> Z)
    (p : Plugin Sample) :
  ghostColumns p = [] ->
  let r := onAfterLoadData gen measure p in
  (exists o, fst r = Ok o) /\
  (hot p = None -> r = (Ok None, p)) /\
  (is_Some (hot p) ->
   exists e, fst r = Ok (Some e) /\
             calculateAllColumnsWidth gen measure None p = (Ok e, snd r)).
Proof.
  intros Hg r.
  destruct (hot p) as [h|] eqn:Hh.
  - destruct (calculateAllColumnsWidth_live gen measure None p h Hh Hg)
      as (e & p' & Hrun & _).
    assert (Hr : r = (Ok (Some e), p')).
    { subst r. unfold onAfterLoadData, bind at 1, hotGone. rewrite Hh. cbn iota.
      unfold bind. by rewrite Hrun. }
    rewrite Hr, Hrun. cbn [fst snd]. split; [by eexists|].
    split; [done|]. intros _. by exists e.
  - assert (Hr : r = (Ok None, p)).
    { subst r. unfold onAfterLoadData, bind at 1, hotGone. by rewrite Hh. }
    rewrite Hr. cbn [fst snd]. split; [by eexists|]. split; [done|]. by intros [? ?].
Qed.

Lemma onAfterLoadData_guarded_witness :
  let gone : Plugin Range := mkPlugin None {[3 := Some 120]} [] [] 0 [] in
  onAfterLoadData columnSamples (fixedWidth 50) gone = (Ok None, gone) /\
  fst (calculateAllColumnsWidth columnSamples (fixedWidth 50) None gone) = TypeError /\
  exists o, fst (onAfterLoadData columnSamples (fixedWidth 50) (fresh (grid 3 30))) = Ok o.
Proof.
  intros gone.
  destruct (onAfterLoadData_guarded columnSamples (fixedWidth 50) gone eq_refl)
    as (_ & Hgone & _).
  destruct (onAfterLoadData_guarded columnSamples (fixedWidth 50) (fresh (grid 3 30)) eq_refl)
    as (Hok & _).
  split; [exact (Hgone eq_refl)|]. split; [reflexivity | exact Hok].
Defined.

(** X13.  After the host is gone, the entry points that read a host
    property first fault at once and leave the plugin as it was: a render,
    a full recalculation, a double-click resize, a calculation with a
    defaulted range.  A resize without the flag still passes its size
    through. *)
Theorem entry_points_on_host_gone {Sample : Type}
    (gen : Z -> Range -> list (Z * Sample)) (measure : Z -> Sample -> Z)
    (p : Plugin Sample) (rowRange : option RangeArg) (colRange : RangeArg)
    (col : Z) (size : JsNum) (force : bool) :
  hot p = None ->
  onBeforeRender gen measure p = (TypeError, p) /\
  calculateAllColumnsWidth gen measure rowRange p = (TypeError, p) /\
  onBeforeColumnResize gen measure col size true p = (TypeError, p) /\
  calculateColumnsWidth gen measure None rowRange force p = (TypeError, p) /\
  calculateColumnsWidth gen measure (Some colRange) None force p = (TypeError, p) /\
  onBeforeColumnResize gen measure col size false p = (Ok size, p).
Proof.
  intros Hh.
  assert (Hhot : theHot p = (TypeError, p)) by (unfold theHot; by rewrite Hh).
  assert (Hdef : forall count, defaultRange count None p = (TypeError, p)).
  { intros count. unfold defaultRange, bind. by rewrite Hhot. }
  assert (Hcalc : forall rows f,
             calculateColumnsWidth gen measure None rows f p = (TypeError, p)).
  { intros rows f. unfold calculateColumnsWidth, bind at 1. by rewrite Hdef. }
  split; [|split; [|split; [|split; [|split]]]].
  - unfold onBeforeRender, bind at 1. by rewrite Hhot.
  - unfold calculateAllColumnsWidth, bind at 1.
    destruct rowRange as [a|].
    + cbn [defaultRange]. unfold ret at 1, bind at 1. by rewrite Hhot.
    + by rewrite Hdef.
  - unfold onBeforeColumnResize, bind at 1. by rewrite Hcalc.
  - apply Hcalc.
  - unfold calculateColumnsWidth, bind at 1. cbn [defaultRange]. unfold ret at 1.
    cbv beta iota. unfold bind at 1. unfold bind at 1. by rewrite Hhot.
  - reflexivity.
Qed.

Lemma entry_points_on_host_gone_witness :
  let gone : Plugin Range := mkPlugin None {[3 := Some 120]} [] [] 0 [] in
  onBeforeRender columnSamples (fixedWidth 50) gone = (TypeError, gone) /\
  onBeforeColumnResize columnSamples (fixedWidth 50) 3 (Some 30) true gone = (TypeError, gone).
Proof.
  intros gone.
  destruct (entry_points_on_host_gone columnSamples (fixedWidth 50) gone None
              (RNumber 0) 3 (Some 30) false eq_refl) as (Hrender & _ & Hresize & _).
  split; [exact Hrender | exact Hresize].
Defined.

(** * Further properties of the scheduler *)

Section SchedulerMore.

Context {Sample : Type}.
Variable gen : Z -> Range -> list (Z * Sample).
Variable measure : Z -> Sample -> Z.

Implicit Types (p : Plugin Sample) (h : Host) (e : Loop.env).

Lemma batch_then_rest cur len :
  cur + 20 < len ->
  columnsOf (mkRange cur (Z.min (cur + 19) len)) ++ seqZ (cur + 19 + 1) (span (len - (cur + 19 + 1)))
  = seqZ cur (span (len - cur)).
Proof.
  intros Hlt. unfold columnsOf. cbn [from to].
  rewrite (span_step (len - cur)) by lia.
  rewrite (seqZ_app cur 20) by (try apply span_nonneg; lia).
  replace (Z.min (cur + 19) len - cur + 1) with 20 by lia.
  replace (len - (cur + 19 + 1)) with (len - cur - 20) by lia.
  by replace (cur + 19 + 1) with (cur + 20) by lia.
Qed.

Lemma batch_last cur len :
  cur < len <= cur + 20 ->
  columnsOf (mkRange cur (Z.min (cur + 19) len)) = seqZ cur (span (len - cur)).
Proof.
  intros Hle. unfold columnsOf. cbn [from to]. rewrite span_last by lia. f_equal. lia.
Qed.

Lemma frames_step d : 20 < d -> Z.to_nat ((d - 1) / 20) = S (Z.to_nat ((d - 20 - 1) / 20)).
Proof.
  intros Hd. replace (d - 1) with (d - 20 - 1 + 1 * 20) by lia.
  rewrite Z_div_plus_full by lia.
  rewrite Z2Nat.inj_add by (try apply Z.div_pos; lia). simpl. lia.
Qed.

Lemma frames_last d : 0 < d <= 20 -> Z.to_nat ((d - 1) / 20) = 0%nat.
Proof. intros Hd. by rewrite Z.div_small by lia. Qed.

Lemma registered_finishEvents t h : registered (@finishEvents Sample t h) = [].
Proof. unfold finishEvents. by destruct t, (needFullRender h). Qed.

Lemma countRequests_finishEvents t h :
  countEvents isRequestFrame (@finishEvents Sample t h) = 0%nat.
Proof. unfold finishEvents. by destruct t, (needFullRender h). Qed.

(** The frames of a run on a host that stays, with what they leave in the
    cache and how many further frames they ask for. *)
Lemma drain_cache (n : nat) : forall (fuel : nat) e p h hd,
  hot p = Some h ->
  ghostColumns p = [] ->
  frames p = [hd] ->
  Loop.timer e = Some hd ->
  Loop.current e < Loop.length e ->
  Loop.length e - Loop.current e <= 20 * Z.of_nat n ->
  (n <= fuel)%nat ->
  let cols := seqZ (Loop.current e) (span (Loop.length e - Loop.current e)) in
  let rows := normalize (Loop.rowRange e) in
  exists e' p' evs,
    drain gen measure fuel e p = Some (Ok e', p') /\
    trace p' = trace p ++ evs /\
    widths p' = flush measure (registrations gen rows cols) (widths p) /\
    registered evs = registrations gen rows cols /\
    countEvents isRequestFrame evs
    = Z.to_nat ((Loop.length e - Loop.current e - 1) / 20).
Proof.
  induction n as [|n IH]; intros fuel e p h hd Hh Hg Hf Ht Hlt Hle Hfuel cols rows; [lia|].
  destruct fuel as [|fuel]; [lia|].
  cbn [drain]. rewrite Hf. unfold frame. rewrite Hf.
  rewrite (loop_live gen measure e (setFrames [] p) h Hh Hg). cbv zeta.
  cbn [frames nextFrame setFrames].
  set (batch := columnsOf (mkRange (Loop.current e)
                  (Z.min (Loop.current e + CALCULATION_STEP) (Loop.length e)))).
  fold rows.
  set (p1 := afterBatch gen measure rows batch (setFrames [] p)).
  assert (Hh1 : hot p1 = Some h) by (subst p1; by rewrite afterBatch_hot).
  assert (Hg1 : ghostColumns p1 = []) by (subst p1; by apply afterBatch_ghostColumns).
  assert (Ht1 : trace p1 = trace p ++ batchEvents gen rows batch)
    by (subst p1; by rewrite afterBatch_trace).
  assert (Hw1 : widths p1 = flush measure (registrations gen rows batch) (widths p))
    by (subst p1; by rewrite afterBatch_widths).
  unfold CALCULATION_STEP in *.
  destruct (Z.ltb_spec (Loop.current e + 19 + 1) (Loop.length e)) as [Hmore|Hlast].
  - set (e1 := Loop.mk (Loop.rowRange e) (Loop.current e + 19 + 1) (Loop.length e)
                 (Some (nextFrame p))).
    set (p2 := log [ERequestFrame (nextFrame p)]
                 (setNextFrame (nextFrame p + 1) (setFrames ([] ++ [nextFrame p]) p1))).
    assert (Hcur : Loop.current e1 < Loop.length e1) by (cbn [Loop.current Loop.length e1]; lia).
    assert (Hbound : Loop.length e1 - Loop.current e1 <= 20 * Z.of_nat n)
      by (cbn [Loop.current Loop.length e1]; lia).
    destruct (IH fuel e1 p2 h (nextFrame p) Hh1 Hg1 eq_refl eq_refl Hcur Hbound ltac:(lia))
      as (e' & p' & evs & Hrun & Ht' & Hw' & Hreg & Hcount).
    cbn [Loop.current Loop.length Loop.rowRange e1] in Hw', Hreg, Hcount. fold rows in Hw', Hreg.
    exists e', p', (batchEvents gen rows batch ++ [ERequestFrame (nextFrame p)] ++ evs).
    assert (Hcols : cols = batch ++ seqZ (Loop.current e + 19 + 1)
                                     (span (Loop.length e - (Loop.current e + 19 + 1))))
      by (subst cols batch; symmetry; apply batch_then_rest; lia).
    split; [exact Hrun|]. split; [|split; [|split]].
    + rewrite Ht'. subst p2. cbn [trace log setNextFrame setFrames]. rewrite Ht1.
      by rewrite <- !app_assoc.
    + rewrite Hw'. subst p2. cbn [widths log setNextFrame setFrames]. rewrite Hw1.
      by rewrite Hcols, registrations_app, flush_app.
    + rewrite !registered_app, registered_batchEvents, Hreg.
      change (registered [ERequestFrame (nextFrame p)]) with (@nil (Z * Sample)).
      by rewrite Hcols, registrations_app.
    + rewrite !countEvents_app, Hcount, countEvents_batchEvents by done.
      rewrite (frames_step (Loop.length e - Loop.current e)) by lia.
      change (countEvents isRequestFrame [@ERequestFrame Sample (nextFrame p)]) with 1%nat.
      replace (Loop.length e - (Loop.current e + 19 + 1) - 1)
        with (Loop.length e - Loop.current e - 20 - 1) by lia.
      lia.
  - set (e1 := Loop.mk (Loop.rowRange e) (Loop.current e + 19 + 1) (Loop.length e)
                 (Loop.timer e)).
    set (p2 := log (finishEvents (Loop.timer e) h)
                 (setFrames (framesAfterCancel (Loop.timer e) []) p1)).
    assert (Hf2 : frames p2 = []) by (subst p2; rewrite Ht; reflexivity).
    assert (Hcols : cols = batch) by (subst cols batch; symmetry; apply batch_last; lia).
    exists e1, p2, (batchEvents gen rows batch ++ finishEvents (Loop.timer e) h).
    split; [destruct fuel; cbn [drain]; by rewrite Hf2|].
    split; [|split; [|split]].
    + subst p2. cbn [trace log setFrames]. rewrite Ht1. by rewrite <- !app_assoc.
    + subst p2. cbn [widths log setFrames]. by rewrite Hw1, Hcols.
    + by rewrite registered_app, registered_batchEvents, registered_finishEvents,
        app_nil_r, Hcols.
    + rewrite countEvents_app, countRequests_finishEvents, countEvents_batchEvents by done.
      by rewrite frames_last by lia.
Qed.

(** A whole run on a live host with at least two rows. *)
Lemma runAllColumnsWidth_summary rowRange p h (fuel : nat) :
  hot p = Some h ->
  ghostColumns p = [] ->
  frames p = [] ->
  1 < countRows h ->
  (Z.to_nat (countRows h) <= fuel)%nat ->
  let cols := seqZ 0 (span (countRows h - 1)) in
  let rows := resolve countRows rowRange h in
  exists e' p',
    runAllColumnsWidth gen measure fuel rowRange p = Some (Ok e', p') /\
    widths p' = flush measure (registrations gen rows cols) (widths p) /\
    registered (since p p') = registrations gen rows cols /\
    countEvents isRequestFrame (since p p') = Z.to_nat ((countRows h - 2) / 20).
Proof.
  intros Hh Hg Hf Hrows Hfuel cols rows.
  unfold runAllColumnsWidth, calculateAllColumnsWidth, bind at 1.
  assert (Hdef : exists a, defaultRange countRows rowRange p = (Ok a, p)
                           /\ normalize a = resolve countRows rowRange h).
  { destruct rowRange as [a|]; [by exists a|].
    eexists. unfold defaultRange, bind, theHot, ret. by rewrite Hh. }
  destruct Hdef as (a & -> & Ha). unfold bind at 1, theHot. rewrite Hh.
  cbn [Loop.current Loop.length].
  destruct (Z.ltb_spec 0 (countRows h - 1)) as [_|]; [|lia].
  set (e0 := Loop.mk a 0 (countRows h - 1) None).
  rewrite (loop_live gen measure e0 p h Hh Hg). cbv zeta.
  cbn [Loop.current Loop.length Loop.rowRange Loop.timer e0]. rewrite Ha, Hf. fold rows.
  set (batch := columnsOf (mkRange 0 (Z.min (0 + CALCULATION_STEP) (countRows h - 1)))).
  set (p1 := afterBatch gen measure rows batch p).
  assert (Hh1 : hot p1 = Some h) by (subst p1; by rewrite afterBatch_hot).
  assert (Hg1 : ghostColumns p1 = []) by (subst p1; by apply afterBatch_ghostColumns).
  assert (Ht1 : trace p1 = trace p ++ batchEvents gen rows batch)
    by (subst p1; by rewrite afterBatch_trace).
  assert (Hw1 : widths p1 = flush measure (registrations gen rows batch) (widths p))
    by (subst p1; by rewrite afterBatch_widths).
  unfold CALCULATION_STEP in *.
  destruct (Z.ltb_spec (0 + 19 + 1) (countRows h - 1)) as [Hmore|Hlast].
  - set (e1 := Loop.mk a (0 + 19 + 1) (countRows h - 1) (Some (nextFrame p))).
    set (p2 := log [ERequestFrame (nextFrame p)]
                 (setNextFrame (nextFrame p + 1) (setFrames ([] ++ [nextFrame p]) p1))).
    assert (Hcur : Loop.current e1 < Loop.length e1) by (cbn [Loop.current Loop.length e1]; lia).
    assert (Hbound : Loop.length e1 - Loop.current e1 <= 20 * Z.of_nat (Z.to_nat (countRows h)))
      by (cbn [Loop.current Loop.length e1]; lia).
    destruct (drain_cache (Z.to_nat (countRows h)) fuel e1 p2 h (nextFrame p)
                Hh1 Hg1 eq_refl eq_refl Hcur Hbound Hfuel)
      as (e' & p' & evs & Hrun & Ht' & Hw' & Hreg & Hcount).
    cbn [Loop.current Loop.length Loop.rowRange e1] in Hw', Hreg, Hcount.
    rewrite Ha in Hw', Hreg. fold rows in Hw', Hreg.
    assert (Hcols : cols = batch ++ seqZ (0 + 19 + 1) (span (countRows h - 1 - (0 + 19 + 1))))
      by (pose proof (batch_then_rest 0 (countRows h - 1) ltac:(lia)) as Hb;
          rewrite Z.sub_0_r in Hb; subst cols batch; symmetry; exact Hb).
    exists e', p'. split; [exact Hrun|].
    assert (Hsince : since p p' = batchEvents gen rows batch ++ [ERequestFrame (nextFrame p)] ++ evs).
    { apply since_app. rewrite Ht'. subst p2. cbn [trace log setNextFrame setFrames].
      rewrite Ht1. by rewrite <- !app_assoc. }
    rewrite Hsince. split; [|split].
    + rewrite Hw'. subst p2. cbn [widths log setNextFrame setFrames]. rewrite Hw1.
      by rewrite Hcols, registrations_app, flush_app.
    + rewrite !registered_app, registered_batchEvents, Hreg.
      change (registered [ERequestFrame (nextFrame p)]) with (@nil (Z * Sample)).
      by rewrite Hcols, registrations_app.
    + rewrite !countEvents_app, Hcount, countEvents_batchEvents by done.
      change (countEvents isRequestFrame [@ERequestFrame Sample (nextFrame p)]) with 1%nat.
      replace (countRows h - 2) with (countRows h - 1 - 1) by lia.
      rewrite (frames_step (countRows h - 1)) by lia.
      replace (countRows h - 1 - (0 + 19 + 1) - 1) with (countRows h - 1 - 20 - 1) by lia.
      lia.
  - set (e1 := Loop.mk a (0 + 19 + 1) (countRows h - 1) None).
    set (p2 := log (finishEvents None h) (setFrames (framesAfterCancel None []) p1)).
    assert (Hf2 : frames p2 = []) by reflexivity.
    assert (Hcols : cols = batch)
      by (pose proof (batch_last 0 (countRows h - 1) ltac:(lia)) as Hb;
          rewrite Z.sub_0_r in Hb; subst cols batch; symmetry; exact Hb).
    exists e1, p2. split; [destruct fuel; cbn [drain]; by rewrite Hf2|].
    assert (Hsince : since p p2 = batchEvents gen rows batch ++ finishEvents None h).
    { apply since_app. subst p2. cbn [trace log setFrames]. rewrite Ht1.
      by rewrite <- !app_assoc. }
    rewrite Hsince. split; [|split].
    + subst p2. cbn [widths log setFrames]. by rewrite Hw1, Hcols.
    + by rewrite registered_app, registered_batchEvents, registered_finishEvents,
        app_nil_r, Hcols.
    + rewrite countEvents_app, countRequests_finishEvents, countEvents_batchEvents by done.
      replace (countRows h - 2) with (countRows h - 1 - 1) by lia.
      by rewrite frames_last by lia.
Qed.

End SchedulerMore.

(** X14.  Batching does not change the outcome: on a live host with at
    least two rows, a completed run registers the same samples in the same
    order, and leaves the same cache, as one forced call of
    [calculateColumnsWidth] over the columns the run visits. *)
Theorem runAllColumnsWidth_as_one_forced_call {Sample : Type}
    (gen : Z -> Range -> list (Z * Sample)) (measure : Z -> Sample -> Z)
    (rowRange : option RangeArg) (p : Plugin Sample) (h : Host) (fuel : nat) :
  hot p = Some h ->
  ghostColumns p = [] ->
  frames p = [] ->
  1 < countRows h ->
  (Z.to_nat (countRows h) <= fuel)%nat ->
  let one := calculateColumnsWidth gen measure
               (Some (RObject (mkRange 0 (span (countRows h - 1) - 1)))) rowRange true p in
  exists e' p',
    runAllColumnsWidth gen measure fuel rowRange p = Some (Ok e', p') /\
    fst one = Ok tt /\
    widths p' = widths (snd one) /\
    registered (since p p') = registered (since p (snd one)) /\
    sampleRequests (since p p') = sampleRequests (since p (snd one)).
Proof.
  intros Hh Hg Hf Hrows Hfuel one.
  destruct (runAllColumnsWidth_summary gen measure rowRange p h fuel Hh Hg Hf Hrows Hfuel)
    as (e' & p' & Hrun & Hw & Hreg & _).
  assert (Hsame : exists e1 p1,
             runAllColumnsWidth gen measure fuel rowRange p = Some (Ok e1, p1) /\
             sampleRequests (since p p1)
             = map (fun c => (c, resolve countRows rowRange h)) (seqZ 0 (span (countRows h - 1)))).
  { unfold runAllColumnsWidth, calculateAllColumnsWidth, bind at 1.
    assert (Hdef : exists a, defaultRange countRows rowRange p = (Ok a, p)
                             /\ normalize a = resolve countRows rowRange h).
    { destruct rowRange as [a|]; [by exists a|].
      eexists. unfold defaultRange, bind, theHot, ret. by rewrite Hh. }
    destruct Hdef as (a & -> & Ha). unfold bind at 1, theHot. rewrite Hh.
    cbn [Loop.current Loop.length].
    destruct (Z.ltb_spec 0 (countRows h - 1)) as [_|]; [|lia].
    rewrite (loop_live gen measure _ p h Hh Hg). cbv zeta.
    cbn [Loop.current Loop.length Loop.rowRange Loop.timer]. rewrite Ha, Hf.
    set (rows := resolve countRows rowRange h).
    set (batch := columnsOf (mkRange 0 (Z.min (0 + CALCULATION_STEP) (countRows h - 1)))).
    set (p1 := afterBatch gen measure rows batch p).
    assert (Hh1 : hot p1 = Some h) by (subst p1; by rewrite afterBatch_hot).
    assert (Hg1 : ghostColumns p1 = []) by (subst p1; by apply afterBatch_ghostColumns).
    assert (Ht1 : trace p1 = trace p ++ batchEvents gen rows batch)
      by (subst p1; by rewrite afterBatch_trace).
    unfold CALCULATION_STEP in *.
    destruct (Z.ltb_spec (0 + 19 + 1) (countRows h - 1)) as [Hmore|Hlast].
    - set (e1 := Loop.mk a (0 + 19 + 1) (countRows h - 1) (Some (nextFrame p))).
      set (p2 := log [ERequestFrame (nextFrame p)]
                   (setNextFrame (nextFrame p + 1) (setFrames ([] ++ [nextFrame p]) p1))).
      assert (Hcur : Loop.current e1 < Loop.length e1)
        by (cbn [Loop.current Loop.length e1]; lia).
      assert (Hbound : Loop.length e1 - Loop.current e1 <= 20 * Z.of_nat (Z.to_nat (countRows h)))
        by (cbn [Loop.current Loop.length e1]; lia).
      destruct (drain_live gen measure (Z.to_nat (countRows h)) fuel e1 p2 h (nextFrame p)
                  Hh1 Hg1 eq_refl eq_refl Hcur Hbound Hfuel)
        as (e2 & p3 & evs & Hrun2 & _ & _ & _ & Ht3 & Hreq & _).
      exists e2, p3. split; [exact Hrun2|].
      rewrite (since_app p p3 (batchEvents gen rows batch ++ [ERequestFrame (nextFrame p)] ++ evs)).
      + rewrite !sampleRequests_app, sampleRequests_batchEvents, Hreq.
        cbn [Loop.current Loop.length Loop.rowRange e1]. rewrite Ha. fold rows.
        change (sampleRequests [ERequestFrame (nextFrame p)]) with (@nil (Z * Range)).
        cbn [app]. rewrite <- map_app. f_equal.
        pose proof (batch_then_rest 0 (countRows h - 1) ltac:(lia)) as Hb.
        rewrite Z.sub_0_r in Hb. exact Hb.
      + rewrite Ht3. subst p2. cbn [trace log setNextFrame setFrames]. rewrite Ht1.
        by rewrite <- !app_assoc.
    - eexists _, _. split; [destruct fuel; reflexivity|].
      rewrite (since_app p _ (batchEvents gen rows batch ++ finishEvents None h)).
      + rewrite sampleRequests_app, sampleRequests_batchEvents, sampleRequests_finishEvents.
        rewrite app_nil_r. f_equal.
        pose proof (batch_last 0 (countRows h - 1) ltac:(lia)) as Hb.
        rewrite Z.sub_0_r in Hb. exact Hb.
      + cbn [trace log setFrames]. rewrite Ht1. by rewrite <- !app_assoc. }
  destruct Hsame as (e1 & p1 & Hrun1 & Hreq).
  rewrite Hrun in Hrun1. injection Hrun1 as <- <-.
  destruct (calculateColumnsWidth_since gen measure
              (Some (RObject (mkRange 0 (span (countRows h - 1) - 1)))) rowRange true p h Hh Hg)
    as (Hok & _ & _ & _ & Hw1 & Hsince1).
  fold one in Hok, Hw1, Hsince1.
  assert (Hcols : List.filter (stale true p)
                    (columnsOf (resolve countCols
                                  (Some (RObject (mkRange 0 (span (countRows h - 1) - 1)))) h))
                  = seqZ 0 (span (countRows h - 1))).
  { rewrite stale_forced. unfold columnsOf. cbn [resolve normalize from to]. f_equal. lia. }
  rewrite Hcols in Hw1, Hsince1.
  exists e', p'. split; [exact Hrun|]. split; [exact Hok|].
  rewrite Hw, Hw1, Hreg, Hreq, Hsince1, registered_batchEvents, sampleRequests_batchEvents.
  by repeat split.
Qed.

Lemma runAllColumnsWidth_as_one_forced_call_witness :
  let p := cached (grid 50 50) {[7 := Some 12; 49 := Some 13]} in
  let one := calculateColumnsWidth columnSamples (fixedWidth 50)
               (Some (RObject (mkRange 0 49))) None true p in
  exists e' p',
    runAllColumnsWidth columnSamples (fixedWidth 50) 50 None p = Some (Ok e', p') /\
    widths p' = widths (snd one) /\
    widthAt (widths p') 7 = Some 50.
Proof.
  intros p one.
  destruct (runAllColumnsWidth_as_one_forced_call columnSamples (fixedWidth 50) None p
              (grid 50 50) 50 eq_refl eq_refl eq_refl eq_refl (le_n _))
    as (e' & p' & Hrun & _ & Hw & _).
  exists e', p'. split; [exact Hrun|]. split; [exact Hw|].
  rewrite Hw. reflexivity.
Defined.

(** X15.  A completed run on a live host with [R] rows, [R] at least 2,
    asks the frame scheduler for exactly [(R - 2) / 20] frames (integer
    division): the first batch runs in the call itself and every further
    batch in a frame of its own. *)
Theorem runAllColumnsWidth_frame_count {Sample : Type}
    (gen : Z -> Range -> list (Z * Sample)) (measure : Z -> Sample -> Z)
    (rowRange : option RangeArg) (p : Plugin Sample) (h : Host) (fuel : nat) :
  hot p = Some h ->
  ghostColumns p = [] ->
  frames p = [] ->
  1 < countRows h ->
  (Z.to_nat (countRows h) <= fuel)%nat ->
  exists e' p',
    runAllColumnsWidth gen measure fuel rowRange p = Some (Ok e', p') /\
    countEvents isRequestFrame (since p p') = Z.to_nat ((countRows h - 2) / 20).
Proof.
  intros Hh Hg Hf Hrows Hfuel.
  destruct (runAllColumnsWidth_summary gen measure rowRange p h fuel Hh Hg Hf Hrows Hfuel)
    as (e' & p' & Hrun & _ & _ & Hcount).
  by exists e', p'.
Qed.

Lemma runAllColumnsWidth_frame_count_witness :
  exists e' p',
    runAllColumnsWidth columnSamples (fixedWidth 50) 50 None (fresh (grid 50 50))
    = Some (Ok e', p') /\
    countEvents isRequestFrame (since (fresh (grid 50 50)) p') = 2%nat.
Proof.
  destruct (runAllColumnsWidth_frame_count columnSamples (fixedWidth 50) None
              (fresh (grid 50 50)) (grid 50 50) 50 eq_refl eq_refl eq_refl eq_refl (le_n _))
    as (e' & p' & Hrun & Hcount).
  exists e', p'. split; [exact Hrun | exact Hcount].
Defined.

(** X16.  One callback on a live host is one batch: it returns normally,
    asks samples for at most 20 columns, all of them from the cursor up to
    [length] and at most 19 beyond the cursor, and asks for at most one
    further frame. *)
Theorem loop_one_batch {Sample : Type}
    (gen : Z -> Range -> list (Z * Sample)) (measure : Z -> Sample -> Z)
    (e : Loop.env) (p : Plugin Sample) (h : Host) :
  hot p = Some h ->
  ghostColumns p = [] ->
  let r := loop gen measure e p in
  (exists e', fst r = Ok e' /\ Loop.current e' = Loop.current e + 20) /\
  (List.length (sampledColumns (since p (snd r))) <= 20)%nat /\
  (forall col, col ∈ sampledColumns (since p (snd r)) ->
               Loop.current e <= col <= Loop.current e + 19 /\ col <= Loop.length e) /\
  (countEvents isRequestFrame (since p (snd r)) <= 1)%nat /\
  ghostColumns (snd r) = [].
Proof.
  intros Hh Hg r. subst r. rewrite (loop_live gen measure e p h Hh Hg). cbv zeta.
  set (rows := normalize (Loop.rowRange e)).
  set (batch := columnsOf (mkRange (Loop.current e)
                  (Z.min (Loop.current e + CALCULATION_STEP) (Loop.length e)))).
  set (p1 := afterBatch gen measure rows batch p).
  assert (Hg1 : ghostColumns p1 = []) by (subst p1; by apply afterBatch_ghostColumns).
  assert (Ht1 : trace p1 = trace p ++ batchEvents gen rows batch)
    by (subst p1; by rewrite afterBatch_trace).
  assert (Hlen : (List.length batch <= 20)%nat).
  { subst batch. unfold columnsOf, CALCULATION_STEP. cbn [from to]. rewrite length_seqZ. lia. }
  assert (Hin : forall col, col ∈ batch ->
                  Loop.current e <= col <= Loop.current e + 19 /\ col <= Loop.length e).
  { intros col Hc. subst batch. unfold columnsOf, CALCULATION_STEP in Hc. cbn [from to] in Hc.
    apply elem_of_seqZ in Hc. lia. }
  unfold CALCULATION_STEP.
  destruct (Loop.current e + 19 + 1 <? Loop.length e).
  - cbn [fst snd].
    rewrite (since_app p _ (batchEvents gen rows batch ++ [ERequestFrame (nextFrame p)]))
      by (cbn [trace log setNextFrame setFrames]; rewrite Ht1; by rewrite <- !app_assoc).
    unfold sampledColumns. rewrite sampleRequests_app.
    change (sampleRequests [ERequestFrame (nextFrame p)]) with (@nil (Z * Range)).
    rewrite app_nil_r. fold (sampledColumns (batchEvents gen rows batch)).
    rewrite sampledColumns_batchEvents, countEvents_app, countEvents_batchEvents by done.
    split; [eexists; split; [reflexivity | cbn [Loop.current]; lia]|].
    split; [exact Hlen|]. split; [exact Hin|]. split; [cbn; lia | exact Hg1].
  - cbn [fst snd].
    rewrite (since_app p _ (batchEvents gen rows batch ++ finishEvents (Loop.timer e) h))
      by (cbn [trace log setFrames]; rewrite Ht1; by rewrite <- !app_assoc).
    unfold sampledColumns. rewrite sampleRequests_app, sampleRequests_finishEvents.
    rewrite app_nil_r. fold (sampledColumns (batchEvents gen rows batch)).
    rewrite sampledColumns_batchEvents, countEvents_app, countEvents_batchEvents,
      countRequests_finishEvents by done.
    split; [eexists; split; [reflexivity | cbn [Loop.current]; lia]|].
    split; [exact Hlen|]. split; [exact Hin|]. split; [lia | exact Hg1].
Qed.

Lemma loop_one_batch_witness :
  let e := Loop.mk (RNumber 0) 40 45 (Some 1) in
  let r := loop columnSamples (fixedWidth 50) e (fresh (grid 5 100)) in
  sampledColumns (since (fresh (grid 5 100)) (snd r)) = [40; 41; 42; 43; 44; 45] /\
  (List.length (sampledColumns (since (fresh (grid 5 100)) (snd r))) <= 20)%nat.
Proof.
  intros e r.
  destruct (loop_one_batch columnSamples (fixedWidth 50) e (fresh (grid 5 100)) (grid 5 100)
              eq_refl eq_refl) as (_ & Hlen & _).
  split; [reflexivity | exact Hlen].
Defined.
